(** * MYCELIUM translation layer: water-stress and biodiversity translators

    A shallow embedding of [translators/water_stress_translator.py] and
    [translators/biodiversity_translator.py], and the properties of the
    two [translate] operations.

    Numbers.  Python floats are idealised as exact rationals ([Q]); every
    literal of the source ([0.7], [1.3], [-2.0], ...) is the rational it
    denotes.  [min], [max], [abs] and [int] are [Qmin], [Qmax], [Qabs] and
    truncation toward zero.  The float power operator [**] has no rational
    counterpart and is a variable of the water translator's section.

    Payloads.  A sensor payload is a Python dict with string keys, that is
    a [gmap string pyval].  An ill-typed payload makes Python raise
    [TypeError] or [AttributeError]; the model reports [PyTypeError] at
    the same place. *)

From Stdlib Require Import QArith Qabs Qminmax Qround Lqa ZArith Lia.
From stdpp Require Import gmap strings.

Open Scope Q_scope.
Open Scope string_scope.

(** ** Python values and primitives *)

Inductive pyval : Type :=
| PNone
| PNum (x : Q)
| PStr (s : string)
| PDict (d : gmap string Q).

(** The two [ValueError]s of the source are told apart by their message:
    "Missing required sensor data: ..." and "Unknown ecosystem type: ...". *)
Inductive error : Type :=
| MissingSensorData
| UnknownEcosystemType
| PyTypeError.

Definition result (A : Type) : Type := (error + A)%type.

Definition is_ok {A} (r : result A) : bool :=
  match r with inr _ => true | inl _ => false end.

(** [d.get(k)]: the value, or [None] when the key is absent. *)
Definition py_get (d : gmap string pyval) (k : string) : pyval :=
  default PNone (d !! k).

(** [v is None]. *)
Definition is_none (v : pyval) : bool :=
  match v with PNone => true | _ => false end.

(** Truth value of [v] in a condition. *)
Definition truthy (v : pyval) : bool :=
  match v with
  | PNone => false
  | PNum x => negb (Qeq_bool x 0)
  | PStr s => negb (String.eqb s "")
  | PDict d => negb (bool_decide (d = ∅))
  end.

(** [x < y] on numbers. *)
Definition Qltb (x y : Q) : bool := negb (Qle_bool y x).

(** [int(x)]: truncation toward zero. *)
Definition py_int (x : Q) : Z := Z.quot (Qnum x) (QDen x).

(** [k not in table] followed by [table[k]], for a table with string
    keys: a number or [None] is hashable and never a key, a dict is
    unhashable. *)
Definition table_lookup {V} (table : gmap string V) (k : pyval) : result V :=
  match k with
  | PStr s =>
      match table !! s with
      | Some v => inr v
      | None => inl UnknownEcosystemType
      end
  | PDict _ => inl PyTypeError
  | PNone | PNum _ => inl UnknownEcosystemType
  end.

(** A number where the code does arithmetic or comparison. *)
Definition as_num (v : pyval) : result Q :=
  match v with
  | PNum x => inr x
  | _ => inl PyTypeError
  end.

(** [timestamp or time.time()]: [now] is the clock's reading. *)
Definition timestamp_or (timestamp : option Q) (now : Q) : Q :=
  match timestamp with
  | Some t => if Qeq_bool t 0 then now else t
  | None => now
  end.

(** ** The feedback pattern's trend sub-record *)

Record Trend : Type := {
  direction : string;
  magnitude : Q
}.

(** ** State and exceptions

    A method of a translator reads and replaces [self.previous_readings]
    and may raise.  A raise keeps the state as it is at that point. *)

Section StateError.
Context {S : Type}.

Definition M (A : Type) : Type := S -> result A * S.

Definition ret {A} (a : A) : M A := fun s => (inr a, s).
Definition raise {A} (e : error) : M A := fun s => (inl e, s).
Definition get : M S := fun s => (inr s, s).
Definition put (s' : S) : M unit := fun _ => (inr tt, s').
Definition lift {A} (r : result A) : M A := fun s => (r, s).
Definition bind {A B} (m : M A) (k : A -> M B) : M B :=
  fun s =>
    match m s with
    | (inr a, s') => k a s'
    | (inl e, s') => (inl e, s')
    end.
End StateError.

Notation "x <- m ;; k" := (bind m (fun x => k))
  (at level 100, m at next level, right associativity).
Notation "m ;;; k" := (bind m (fun _ => k))
  (at level 100, right associativity).

(** * WaterStressTranslator *)

Module Water.

(** One entry of [ecosystem_moisture_ranges]. *)
Record MoistureRanges : Type := {
  optimal : Q * Q;
  stress_threshold : Q;
  saturation_threshold : Q
}.

Definition ecosystem_moisture_table : list (string * MoistureRanges) :=
  [ ("temperate_forest",
     {| optimal := (30, 45); stress_threshold := 25; saturation_threshold := 55 |});
    ("grassland",
     {| optimal := (20, 35); stress_threshold := 15; saturation_threshold := 45 |});
    ("desert_scrub",
     {| optimal := (8, 20); stress_threshold := 5; saturation_threshold := 30 |});
    ("wetland",
     {| optimal := (60, 85); stress_threshold := 50; saturation_threshold := 95 |});
    ("rainforest",
     {| optimal := (50, 70); stress_threshold := 45; saturation_threshold := 80 |}) ].

Definition ecosystem_moisture_ranges : gmap string MoistureRanges :=
  list_to_map ecosystem_moisture_table.

Definition max_intensity : Q := 10.0.
Definition base_intensity : Q := 2.0.
Definition pulse_duration : Q := 0.8.
Definition pause_duration : Q := 1.2.

(** [self.previous_readings]. *)
Record Readings : Type := {
  prev_soil_moisture : pyval;
  prev_stress_level : option Q;
  prev_timestamp : option Q
}.

(** The readings of a freshly constructed translator. *)
Definition init : Readings :=
  {| prev_soil_moisture := PNone; prev_stress_level := None; prev_timestamp := None |}.

(** The dict returned by [generate_feedback_pattern], with the [trend]
    key [translate] may add. *)
Record Pattern : Type := {
  type : string;
  intensity : Q;
  rhythm : string;
  pulse_count : Z;
  duration : Q;
  frequency : string;
  location : string;
  description : string;
  emotion : string;
  trend : option Trend
}.

Definition set_trend (p : Pattern) (t : Trend) : Pattern :=
  {| type := type p; intensity := intensity p; rhythm := rhythm p;
     pulse_count := pulse_count p; duration := duration p;
     frequency := frequency p; location := location p;
     description := description p; emotion := emotion p;
     trend := Some t |}.

(** The result triple [(stress_level, is_saturated, saturation_level)]. *)
Record Analysis : Type := {
  stress_level : Q;
  is_saturated : bool;
  saturation_level : Q
}.

Section WithPow.

(** [fpow x y] is [x ** y]. *)
Variable fpow : Q -> Q -> Q.

(** Lines 63-79: the saturation check and the drought-stress score. *)
Definition moisture_score (ranges : MoistureRanges) (soil_moisture : Q) : Analysis :=
  let '(optimal_low, optimal_high) := optimal ranges in
  let stress_threshold := stress_threshold ranges in
  let saturation_threshold := saturation_threshold ranges in
  if Qltb saturation_threshold soil_moisture then
    {| stress_level := 0.0;
       is_saturated := true;
       saturation_level :=
         Qmin 1.0 ((soil_moisture - saturation_threshold) / (100 - saturation_threshold)) |}
  else if Qltb soil_moisture optimal_low then
    if Qle_bool soil_moisture stress_threshold then
      let stress_level := Qmin 1.0 ((stress_threshold - soil_moisture) / stress_threshold) in
      let stress_level :=
        if Qltb 0.7 stress_level
        then Qmin 1.0 (0.7 + fpow (stress_level - 0.7) 0.7)
        else stress_level in
      {| stress_level := stress_level; is_saturated := false; saturation_level := 0.0 |}
    else
      {| stress_level := (optimal_low - soil_moisture) / (optimal_low - stress_threshold);
         is_saturated := false; saturation_level := 0.0 |}
  else
    {| stress_level := 0.0; is_saturated := false; saturation_level := 0.0 |}.

(** Lines 83-108: the body of [if additional_indicators:], on a dict. *)
Definition integrate_indicators (stress_level : Q) (additional_indicators : gmap string Q) : Q :=
  let stress_level :=
    match additional_indicators !! "leaf_water_potential" with
    | Some leaf_potential =>
        if Qltb leaf_potential (-2.0) then Qmin 1.0 (stress_level + 0.2)
        else if Qltb leaf_potential (-1.5) then Qmin 1.0 (stress_level + 0.1)
        else stress_level
    | None => stress_level
    end in
  let stress_level :=
    match additional_indicators !! "stream_flow" with
    | Some stream_flow =>
        if Qltb stream_flow 0.5 then Qmin 1.0 (stress_level * 1.3) else stress_level
    | None => stress_level
    end in
  let stress_level :=
    match additional_indicators !! "water_table_depth" with
    | Some water_table =>
        if Qltb (default 0 (additional_indicators !! "normal_water_table_depth") * 1.5)
                water_table
        then Qmin 1.0 (stress_level + 0.15)
        else stress_level
    | None => stress_level
    end in
  match additional_indicators !! "precipitation_deficit" with
  | Some precip_deficit =>
      if Qltb 30 precip_deficit
      then Qmin 1.0 (stress_level + (precip_deficit / 100) * 0.2)
      else stress_level
  | None => stress_level
  end.

(** [analyze_water_stress], lines 34-110. *)
Definition analyze_water_stress
    (soil_moisture ecosystem_type additional_indicators : pyval) : result Analysis :=
  match table_lookup ecosystem_moisture_ranges ecosystem_type with
  | inl e => inl e
  | inr ranges =>
      match as_num soil_moisture with
      | inl e => inl e
      | inr sm =>
          let a := moisture_score ranges sm in
          if truthy additional_indicators then
            match additional_indicators with
            | PDict d =>
                inr {| stress_level := integrate_indicators (stress_level a) d;
                       is_saturated := is_saturated a;
                       saturation_level := saturation_level a |}
            | _ => inl PyTypeError
            end
          else inr a
      end
  end.

(** [generate_feedback_pattern], lines 112-186. *)
Definition generate_feedback_pattern
    (stress_level : Q) (is_saturated : bool) (saturation_level : Q)
    (previous_stress : option Q) : Pattern :=
  let recovering :=
    match previous_stress with
    | Some previous_stress =>
        if Qltb stress_level previous_stress && Qltb 0.3 previous_stress
           && Qltb stress_level 0.3
        then Some previous_stress else None
    | None => None
    end in
  match recovering with
  | Some previous_stress =>
    let recovery_ratio := Qmin 1.0 ((previous_stress - stress_level) / previous_stress) in
    {| type := "recovery";
       intensity := base_intensity + (max_intensity - base_intensity) * recovery_ratio * 0.4;
       rhythm := "slow_release";
       pulse_count := 3;
       duration := pulse_duration * 2;
       frequency := "medium_low";
       location := "whole_body";
       description := "A gentle release from tension to warmth, signaling ecosystem recovery";
       emotion := "relief";
       trend := None |}
  | None =>
  if Qeq_bool stress_level 0 && negb is_saturated then
    {| type := "affirmation";
       intensity := base_intensity * 0.5;
       rhythm := "steady";
       pulse_count := 1;
       duration := pulse_duration;
       frequency := "low";
       location := "whole_body";
       description := "A gentle, affirming warmth indicating healthy water balance";
       emotion := "contentment";
       trend := None |}
  else if is_saturated then
    {| type := "pressure";
       intensity := base_intensity + (max_intensity - base_intensity) * fpow saturation_level 1.5;
       rhythm := "wave";
       pulse_count := 2;
       duration := pulse_duration * 1.5;
       frequency := "low";
       location := "chest_and_limbs";
       description := "A slow, heavy pressure mimicking the feeling of waterlogged soil";
       emotion := "heaviness";
       trend := None |}
  else
    {| type := "tension";
       intensity := base_intensity + (max_intensity - base_intensity) * fpow stress_level 1.5;
       rhythm := if Qltb 0.7 stress_level then "staccato" else "intermittent";
       pulse_count := Z.max 2 (Z.min 5 (py_int (stress_level * 6)));
       duration := pulse_duration * (1.0 - stress_level * 0.5);
       frequency := "medium_high";
       location := "throat_and_chest";
       description := "A constricting sensation mimicking thirst, intensifying with drought severity";
       emotion := if Qltb stress_level 0.5 then "concern" else "urgency";
       trend := None |}
  end.

(** [translate], lines 188-239.  [now] is what [time.time()] returns. *)
Definition translate (now : Q) (sensor_data : gmap string pyval) (timestamp : option Q)
  : M (S:=Readings) Pattern :=
  let soil_moisture := py_get sensor_data "soil_moisture" in
  let ecosystem_type := py_get sensor_data "ecosystem_type" in
  let additional_indicators := py_get sensor_data "additional_indicators" in
  (if is_none soil_moisture || is_none ecosystem_type
   then raise MissingSensorData else ret tt) ;;;
  self <- get ;;
  let previous_stress := prev_stress_level self in
  a <- lift (analyze_water_stress soil_moisture ecosystem_type additional_indicators) ;;
  let feedback :=
    generate_feedback_pattern (stress_level a) (is_saturated a) (saturation_level a)
                              previous_stress in
  put {| prev_soil_moisture := soil_moisture;
         prev_stress_level := Some (stress_level a);
         prev_timestamp := Some (timestamp_or timestamp now) |} ;;;
  match previous_stress with
  | Some previous_stress =>
      let trend := stress_level a - previous_stress in
      if Qltb 0.1 (Qabs trend) then
        ret (set_trend feedback
               {| direction := if Qltb trend 0 then "improving" else "worsening";
                  magnitude := Qabs trend |})
      else ret feedback
  | None => ret feedback
  end.

End WithPow.

(** [get_historical_trends], lines 241-263: the returned dict.  The
    [timeframe] argument is not used. *)
Definition get_historical_trends (self : Readings) (timeframe : pyval)
  : gmap string pyval :=
  match prev_stress_level self with
  | None => list_to_map [("trend", PStr "unknown"); ("confidence", PNum 0)]
  | Some stress_level =>
      list_to_map
        [("current_stress", PNum stress_level);
         ("last_reading_time", from_option PNum PNone (prev_timestamp self));
         ("trend", PStr "unknown");
         ("confidence", PNum 0)]
  end.

End Water.

(** * BiodiversityTranslator *)

Notation "x <-! m ;; k" :=
  (match m with inl e => inl e | inr x => k end)
  (at level 100, m at next level, right associativity).

Module Biodiversity.

(** The thresholds of one indicator. *)
Record IndicatorThresholds : Type := {
  optimal : Q * Q;
  low_threshold : Q
}.

(** One entry of [diversity_thresholds]: a dict with four fixed keys. *)
Record DiversityThresholds : Type := {
  species_count : IndicatorThresholds;
  bird_species : IndicatorThresholds;
  insect_orders : IndicatorThresholds;
  shannon_index : IndicatorThresholds
}.

Definition diversity_table : list (string * DiversityThresholds) :=
  [ ("temperate_forest",
     {| species_count := {| optimal := (20, 50); low_threshold := 10 |};
        bird_species := {| optimal := (15, 30); low_threshold := 8 |};
        insect_orders := {| optimal := (8, 12); low_threshold := 5 |};
        shannon_index := {| optimal := (2.5, 4.0); low_threshold := 2.0 |} |});
    ("grassland",
     {| species_count := {| optimal := (15, 40); low_threshold := 8 |};
        bird_species := {| optimal := (10, 25); low_threshold := 6 |};
        insect_orders := {| optimal := (7, 10); low_threshold := 4 |};
        shannon_index := {| optimal := (2.0, 3.5); low_threshold := 1.5 |} |});
    ("wetland",
     {| species_count := {| optimal := (25, 60); low_threshold := 15 |};
        bird_species := {| optimal := (20, 40); low_threshold := 12 |};
        insect_orders := {| optimal := (8, 12); low_threshold := 5 |};
        shannon_index := {| optimal := (2.8, 4.5); low_threshold := 2.2 |} |});
    ("desert_scrub",
     {| species_count := {| optimal := (10, 30); low_threshold := 5 |};
        bird_species := {| optimal := (8, 20); low_threshold := 4 |};
        insect_orders := {| optimal := (5, 8); low_threshold := 3 |};
        shannon_index := {| optimal := (1.5, 3.0); low_threshold := 1.0 |} |}) ].

Definition diversity_thresholds : gmap string DiversityThresholds :=
  list_to_map diversity_table.

Definition max_complexity : Q := 10.0.
Definition base_complexity : Q := 3.0.

(** [self.previous_readings]. *)
Record Readings : Type := {
  prev_depletion_level : option Q;
  prev_timestamp : option Q
}.

Definition init : Readings :=
  {| prev_depletion_level := None; prev_timestamp := None |}.

(** The dict returned by [generate_feedback_pattern]; the recovery
    pattern has no [frequency_range] key. *)
Record Pattern : Type := {
  type : string;
  complexity : Q;
  rhythm : string;
  layers : Z;
  duration : Q;
  frequency_range : option string;
  location : string;
  description : string;
  emotion : string;
  trend : option Trend
}.

Definition set_trend (p : Pattern) (t : Trend) : Pattern :=
  {| type := type p; complexity := complexity p; rhythm := rhythm p;
     layers := layers p; duration := duration p;
     frequency_range := frequency_range p; location := location p;
     description := description p; emotion := emotion p;
     trend := Some t |}.

(** The [if / elif / else] of one indicator block (lines 72-82, 91-98,
    107-114, 123-130); [below] and [near] are the block's two weightings. *)
Definition zone_score (t : IndicatorThresholds) (below near : Q -> Q) (value : Q) : Q :=
  let '(optimal_low, optimal_high) := optimal t in
  let low_threshold := low_threshold t in
  if Qltb value low_threshold then
    below (Qmin 1.0 ((low_threshold - value) / low_threshold))
  else if Qltb value optimal_low then
    near ((optimal_low - value) / (optimal_low - low_threshold))
  else 0.0.

(** [if key in biodiversity_data: ... depletion_scores.append(score value)]. *)
Definition append_score (biodiversity_data : gmap string pyval) (key : string)
    (score : Q -> Q) (depletion_scores : list Q) : result (list Q) :=
  match biodiversity_data !! key with
  | Some v => x <-! as_num v ;; inr (depletion_scores ++ [score x])%list
  | None => inr depletion_scores
  end.

(** [sum(l)]. *)
Definition py_sum (l : list Q) : Q := fold_left Qplus l 0.

(** [analyze_biodiversity], lines 48-144. *)
Definition analyze_biodiversity
    (biodiversity_data : gmap string pyval) (ecosystem_type : pyval) : result Q :=
  thresholds <-! table_lookup diversity_thresholds ecosystem_type ;;
  let depletion_scores := [] in
  depletion_scores <-!
    append_score biodiversity_data "species_count"
      (zone_score (species_count thresholds)
         (fun depletion => depletion * 1.2) (fun depletion => depletion * 0.8))
      depletion_scores ;;
  depletion_scores <-!
    append_score biodiversity_data "bird_species"
      (zone_score (bird_species thresholds)
         (fun depletion => depletion) (fun depletion => depletion * 0.7))
      depletion_scores ;;
  depletion_scores <-!
    append_score biodiversity_data "insect_orders"
      (zone_score (insect_orders thresholds)
         (fun depletion => depletion * 1.1) (fun depletion => depletion * 0.8))
      depletion_scores ;;
  depletion_scores <-!
    append_score biodiversity_data "shannon_index"
      (zone_score (shannon_index thresholds)
         (fun depletion => depletion * 1.3) (fun depletion => depletion * 0.9))
      depletion_scores ;;
  depletion_scores <-!
    append_score biodiversity_data "acoustic_diversity"
      (fun acoustic => Qmax 0 (1 - acoustic))
      depletion_scores ;;
  match depletion_scores with
  | [] => inr 0.5
  | _ :: _ =>
      inr (py_sum depletion_scores / inject_Z (Z.of_nat (length depletion_scores)))
  end.

(** [generate_feedback_pattern], lines 146-211. *)
Definition generate_feedback_pattern
    (depletion_level : Q) (previous_depletion : option Q) : Pattern :=
  let recovering :=
    match previous_depletion with
    | Some previous_depletion =>
        Qltb depletion_level previous_depletion && Qltb 0.3 previous_depletion
    | None => false
    end in
  if recovering then
    {| type := "expanding_harmony";
       complexity :=
         base_complexity + (max_complexity - base_complexity) * (1 - depletion_level);
       rhythm := "building";
       layers := Z.max 2 (py_int ((1 - depletion_level) * 8));
       duration := 4.0;
       frequency_range := None;
       location := "whole_body";
       description := "A gradually expanding sensation of harmony, like a forest awakening";
       emotion := "hope";
       trend := None |}
  else if Qltb depletion_level 0.2 then
    {| type := "harmony";
       complexity := max_complexity * 0.8;
       rhythm := "layered";
       layers := Z.max 3 (py_int ((1 - depletion_level) * 10));
       duration := 3.0;
       frequency_range := Some "full_spectrum";
       location := "whole_body";
       description :=
         "A rich, expansive symphony of sensations, like standing in a vibrant ecosystem";
       emotion := "wonder";
       trend := None |}
  else if Qltb depletion_level 0.5 then
    {| type := "simplified_harmony";
       complexity := max_complexity * 0.5;
       rhythm := "regular";
       layers := Z.max 2 (py_int ((1 - depletion_level) * 6));
       duration := 2.5;
       frequency_range := Some "limited";
       location := "torso_and_arms";
       description := "A pleasant but simplified pattern, like a garden with fewer species";
       emotion := "contentment";
       trend := None |}
  else
    {| type := "monotony";
       complexity :=
         base_complexity + (max_complexity - base_complexity) * (1 - depletion_level);
       rhythm := "repetitive";
       layers := Z.max 1 (py_int ((1 - depletion_level) * 3));
       duration := 2.0;
       frequency_range := Some "narrow";
       location := "arms_only";
       description := "A sparse, monotonous pulse signaling ecological simplification";
       emotion := if Qltb depletion_level 0.7 then "concern" else "alarm";
       trend := None |}.

(** The dict comprehension of lines 224-225. *)
Definition metrics_of (sensor_data : gmap string pyval) : gmap string pyval :=
  filter (fun kv => kv.1 ∉ ["ecosystem_type"; "timestamp"]) sensor_data.

(** [translate], lines 213-255.  [now] is what [time.time()] returns. *)
Definition translate (now : Q) (sensor_data : gmap string pyval) (timestamp : option Q)
  : M (S:=Readings) Pattern :=
  let biodiversity_data := metrics_of sensor_data in
  let ecosystem_type := py_get sensor_data "ecosystem_type" in
  (if Nat.eqb (size biodiversity_data) 0 || is_none ecosystem_type
   then raise MissingSensorData else ret tt) ;;;
  self <- get ;;
  let previous_depletion := prev_depletion_level self in
  depletion_level <- lift (analyze_biodiversity biodiversity_data ecosystem_type) ;;
  let feedback := generate_feedback_pattern depletion_level previous_depletion in
  put {| prev_depletion_level := Some depletion_level;
         prev_timestamp := Some (timestamp_or timestamp now) |} ;;;
  match previous_depletion with
  | Some previous_depletion =>
      let trend := depletion_level - previous_depletion in
      if Qltb 0.05 (Qabs trend) then
        ret (set_trend feedback
               {| direction := if Qltb trend 0 then "improving" else "worsening";
                  magnitude := Qabs trend |})
      else ret feedback
  | None => ret feedback
  end.

End Biodiversity.

(** * CommunityInterface: the feedback of a collective pulse

    [community/community_interface.py] calls [translate] in
    [_generate_collective_feedback].  Of the interface's attributes that
    method reads and writes [channels["collective_pulse"]] and
    [translators] only; they make up the state modelled here. *)

Module Community.

(** An entry of [self.translators]: an instance of one of the two
    translator classes, with its [previous_readings].  Each domain is
    served by an instance of its own, as the application registers them:
    no instance is shared between two domains. *)
Inductive Translator : Type :=
| WaterStressTranslator (self : Water.Readings)
| BiodiversityTranslator (self : Biodiversity.Readings).

(** The dict [translate] returned. *)
Inductive Pattern : Type :=
| WaterPattern (p : Water.Pattern)
| BiodiversityPattern (p : Biodiversity.Pattern).

(** The [community_context] entry added to the feedback. *)
Record CommunityContext : Type := {
  participant_count : nat;
  watershed : string;
  context_focus_area : pyval;
  collective_intensity : Q
}.

Record Feedback : Type := {
  pattern : Pattern;
  community_context : CommunityContext
}.

(** A pulse session, as [initiate_collective_pulse] creates it
    (lines 183-194). *)
Record Session : Type := {
  session_id : string;
  initiator : string;
  time : string;
  status : string;
  domain : string;
  focus_area : pyval;
  duration : Q;
  participants : list string;
  feedback_pattern : option Feedback;
  reflections : list (gmap string pyval)
}.

Record Interface : Type := {
  collective_pulse : list Session;
  translators : gmap string Translator
}.

(** What [_generate_collective_feedback] returns: [{"error": ...}] or the
    feedback. *)
Inductive Reply : Type :=
| ErrorReply (error : string)
| FeedbackReply (feedback : Feedback).

(** [_get_watershed_name], lines 156-159. *)
Definition _get_watershed_name : string := "Coastal Creek Watershed".

(** [_get_current_ecological_data], lines 314-349. *)
Definition _get_current_ecological_data (domain : string) (focus_area : pyval)
  : gmap string pyval :=
  if String.eqb domain "water_stress" then
    list_to_map
      [("soil_moisture", PNum 25);
       ("ecosystem_type", PStr "temperate_forest");
       ("additional_indicators",
        PDict (list_to_map [("leaf_water_potential", -1.2);
                            ("stream_flow", 0.7);
                            ("precipitation_deficit", 15)]))]
  else if String.eqb domain "biodiversity" then
    list_to_map
      [("ecosystem_type", PStr "temperate_forest");
       ("species_count", PNum 28);
       ("bird_species", PNum 18);
       ("insect_orders", PNum 8);
       ("shannon_index", PNum 2.8);
       ("acoustic_diversity", PNum 0.65)]
  else
    list_to_map [("ecosystem_type", PStr "temperate_forest")].

(** [min(1.0, len(participants) / 10 * 0.5 + 0.5)], line 303. *)
Definition intensity_of_group (participants : list string) : Q :=
  Qmin 1.0 (inject_Z (Z.of_nat (length participants)) / 10 * 0.5 + 0.5).

(** [session["feedback_pattern"] = feedback; session["status"] = "active"]. *)
Definition activate (session : Session) (feedback : Feedback) : Session :=
  {| session_id := session_id session;
     initiator := initiator session;
     time := time session;
     status := "active";
     domain := domain session;
     focus_area := focus_area session;
     duration := duration session;
     participants := participants session;
     feedback_pattern := Some feedback;
     reflections := reflections session |}.

Section WithPow.

Variable fpow : Q -> Q -> Q.

(** [translator.translate(current_data)]: the method of the instance's
    class, with no [timestamp]. *)
Definition translator_translate (now : Q) (translator : Translator)
    (current_data : gmap string pyval) : result Pattern * Translator :=
  match translator with
  | WaterStressTranslator self =>
      let '(r, self') := Water.translate fpow now current_data None self in
      (match r with inl e => inl e | inr p => inr (WaterPattern p) end,
       WaterStressTranslator self')
  | BiodiversityTranslator self =>
      let '(r, self') := Biodiversity.translate now current_data None self in
      (match r with inl e => inl e | inr p => inr (BiodiversityPattern p) end,
       BiodiversityTranslator self')
  end.

(** [_generate_collective_feedback], lines 270-312.  The session is the
    first one of the channel with the given id; an exception of [translate]
    is not caught. *)
Definition _generate_collective_feedback (now : Q) (id : string)
  : M (S:=Interface) Reply :=
  self <- get ;;
  match list_find (fun s => session_id s = id) (collective_pulse self) with
  | None => ret (ErrorReply "Session not found")
  | Some (i, session) =>
      let current_data :=
        _get_current_ecological_data (domain session) (focus_area session) in
      match translators self !! domain session with
      | Some translator =>
          let '(r, translator') := translator_translate now translator current_data in
          put {| collective_pulse := collective_pulse self;
                 translators := <[domain session := translator']> (translators self) |} ;;;
          pattern <- lift r ;;
          let feedback :=
            {| pattern := pattern;
               community_context :=
                 {| participant_count := length (participants session);
                    watershed := _get_watershed_name;
                    context_focus_area := focus_area session;
                    collective_intensity := intensity_of_group (participants session) |} |} in
          self <- get ;;
          put {| collective_pulse := <[i := activate session feedback]> (collective_pulse self);
                 translators := translators self |} ;;;
          ret (FeedbackReply feedback)
      | None =>
          ret (ErrorReply ("No translator available for " ++ domain session))
      end
  end.

End WithPow.

End Community.

(** * Specification vocabulary and call histories *)

(** [clamp x lo hi], as the specification writes it. *)
Definition clamp (x lo hi : Q) : Q := Qmax lo (Qmin hi x).

Definition clampZ (n lo hi : Z) : Z := Z.max lo (Z.min hi n).

(** [round(x)] of Python 3: to the nearest integer, ties to the even one. *)
Definition py_round (x : Q) : Z :=
  let f := Qfloor x in
  let r := x - inject_Z f in
  if Qltb r 0.5 then f
  else if Qltb 0.5 r then (f + 1)%Z
  else if Z.even f then f else (f + 1)%Z.

(** The pulse count as the specification states it. *)
Definition spec_pulse_count (stress_level : Q) : Z :=
  clampZ (py_round (stress_level * 6)) 2 5.

(** The optional [additional_indicators] argument as a Python value. *)
Definition indicators_value (ind : option (gmap string Q)) : pyval :=
  match ind with
  | Some d => PDict d
  | None => PNone
  end.

(** A rational stand-in for [**], to run the water translator on concrete
    payloads; every theorem below holds for any power function. *)
Definition pow_sample (x y : Q) : Q := x.

(** One call [translate(sensor_data, timestamp)], made when the clock
    reads [clock]. *)
Record Call : Type := {
  sensor_data : gmap string pyval;
  timestamp : option Q;
  clock : Q
}.

(** A sequence of calls on one translator instance: the outcome of each
    call and the readings the instance is left with. *)
Fixpoint run {S P : Type} (step : Call -> M (S:=S) P) (calls : list Call) (s : S)
  : list (result P) * S :=
  match calls with
  | [] => ([], s)
  | c :: rest =>
      let '(r, s') := step c s in
      let '(rs, s'') := run step rest s' in
      (r :: rs, s'')
  end.

Definition water_call (fpow : Q -> Q -> Q) (c : Call) : M (S:=Water.Readings) Water.Pattern :=
  Water.translate fpow (clock c) (sensor_data c) (timestamp c).

Definition biodiversity_call (c : Call) : M (S:=Biodiversity.Readings) Biodiversity.Pattern :=
  Biodiversity.translate (clock c) (sensor_data c) (timestamp c).

(** * Properties *)

Lemma Qltb_lt x y : Qltb x y = true <-> x < y.
Proof.
  unfold Qltb. rewrite negb_true_iff, <- not_true_iff_false, Qle_bool_iff.
  split; [apply Qnot_le_lt | apply Qlt_not_le].
Qed.

Lemma Qltb_ge x y : Qltb x y = false <-> y <= x.
Proof. unfold Qltb. rewrite negb_false_iff. apply Qle_bool_iff. Qed.

Lemma Qmin_1_bounds x : 0 <= x -> 0 <= Qmin 1.0 x <= 1.
Proof.
  intros Hx. destruct (Q.min_spec 1.0 x) as [[H ->] | [H ->]]; lra.
Qed.

Lemma Qdiv_pos a b : 0 < a -> 0 < b -> 0 < a / b.
Proof. intros Ha Hb. apply Qlt_shift_div_l; lra. Qed.

Lemma Qdiv_nonneg a b : 0 <= a -> 0 < b -> 0 <= a / b.
Proof. intros Ha Hb. apply Qle_shift_div_l; lra. Qed.

Lemma Qdiv_le_1 a b : a <= b -> 0 < b -> a / b <= 1.
Proof. intros Ha Hb. apply Qle_shift_div_r; lra. Qed.

(** Every configured moisture profile is ordered:
    [0 < stress_threshold < optimal_low < optimal_high < saturation_threshold < 100]. *)
Lemma moisture_ranges_ordered eco r :
  Water.ecosystem_moisture_ranges !! eco = Some r ->
  0 < Water.stress_threshold r /\
  Water.stress_threshold r < fst (Water.optimal r) /\
  fst (Water.optimal r) < snd (Water.optimal r) /\
  snd (Water.optimal r) < Water.saturation_threshold r /\
  Water.saturation_threshold r < 100.
Proof.
  intros H. apply elem_of_list_to_map_2 in H.
  unfold Water.ecosystem_moisture_table in H.
  repeat (apply elem_of_cons in H as [H | H];
          [inversion H; subst; cbn; repeat split; reflexivity |]).
  apply elem_of_nil in H. destruct H.
Qed.

Lemma integrate_indicators_empty s :
  Water.integrate_indicators s ∅ = s.
Proof. unfold Water.integrate_indicators. rewrite !lookup_empty. reflexivity. Qed.

Lemma integrate_indicators_bounds s d :
  0 <= s <= 1 -> 0 <= Water.integrate_indicators s d <= 1.
Proof.
  intros Hs. unfold Water.integrate_indicators.
  set (s1 := match d !! "leaf_water_potential" with Some _ => _ | None => _ end).
  assert (H1 : 0 <= s1 <= 1).
  { subst s1. destruct (d !! "leaf_water_potential") as [l |]; [| exact Hs].
    destruct (Qltb l (-2.0)); [apply Qmin_1_bounds; lra |].
    destruct (Qltb l (-1.5)); [apply Qmin_1_bounds; lra | exact Hs]. }
  clearbody s1.
  set (s2 := match d !! "stream_flow" with Some _ => _ | None => _ end).
  assert (H2 : 0 <= s2 <= 1).
  { subst s2. destruct (d !! "stream_flow") as [f |]; [| exact H1].
    destruct (Qltb f 0.5); [apply Qmin_1_bounds; lra | exact H1]. }
  clearbody s2.
  set (s3 := match d !! "water_table_depth" with Some _ => _ | None => _ end).
  assert (H3 : 0 <= s3 <= 1).
  { subst s3. destruct (d !! "water_table_depth") as [w |]; [| exact H2].
    destruct (Qltb _ w); [apply Qmin_1_bounds; lra | exact H2]. }
  clearbody s3.
  destruct (d !! "precipitation_deficit") as [p |]; [| exact H3].
  destruct (Qltb 30 p) eqn:Hp; [| exact H3].
  apply Qltb_lt in Hp. apply Qmin_1_bounds.
  assert (Hq : 0 <= p / 100) by (apply Qdiv_nonneg; lra).
  set (q := p / 100) in *. lra.
Qed.

Section WaterFacts.

Variable fpow : Q -> Q -> Q.

Lemma moisture_score_saturated r sm :
  Water.saturation_threshold r < sm ->
  Water.moisture_score fpow r sm =
    {| Water.stress_level := 0.0;
       Water.is_saturated := true;
       Water.saturation_level :=
         Qmin 1.0 ((sm - Water.saturation_threshold r)
                   / (100 - Water.saturation_threshold r)) |}.
Proof.
  intros H. unfold Water.moisture_score. destruct (Water.optimal r) as [lo hi].
  apply Qltb_lt in H. rewrite H. reflexivity.
Qed.

Lemma moisture_score_not_saturated r sm :
  sm <= Water.saturation_threshold r ->
  Water.is_saturated (Water.moisture_score fpow r sm) = false /\
  Water.saturation_level (Water.moisture_score fpow r sm) = 0.0.
Proof.
  intros H. unfold Water.moisture_score. destruct (Water.optimal r) as [lo hi].
  apply Qltb_ge in H. rewrite H.
  destruct (Qltb sm lo); [destruct (Qle_bool sm _) |]; split; reflexivity.
Qed.

(** The stress and saturation levels stay in [[0,1]] for a soil moisture
    in [[0,100]], whatever the indicators, when [**] maps a non-negative
    base to a non-negative power. *)
Lemma moisture_score_bounds eco r sm :
  (forall x y, 0 <= x -> 0 <= fpow x y) ->
  Water.ecosystem_moisture_ranges !! eco = Some r ->
  0 <= sm <= 100 ->
  0 <= Water.stress_level (Water.moisture_score fpow r sm) <= 1 /\
  0 <= Water.saturation_level (Water.moisture_score fpow r sm) <= 1.
Proof.
  intros Hpow Hr Hsm.
  destruct (moisture_ranges_ordered _ _ Hr) as (H0 & H1 & H2 & H3 & H4).
  unfold Water.moisture_score. destruct (Water.optimal r) as [lo hi]. cbn in H1, H2, H3.
  destruct (Qltb (Water.saturation_threshold r) sm) eqn:Hsat; cbn.
  { apply Qltb_lt in Hsat. split; [lra |].
    apply Qmin_1_bounds, Qdiv_nonneg; lra. }
  destruct (Qltb sm lo) eqn:Hlo; cbn; [| lra].
  apply Qltb_lt in Hlo.
  destruct (Qle_bool sm (Water.stress_threshold r)) eqn:Hst; cbn.
  - apply Qle_bool_iff in Hst. split; [| lra].
    set (s := Qmin 1.0 _).
    assert (Hs : 0 <= s <= 1) by (apply Qmin_1_bounds, Qdiv_nonneg; lra).
    destruct (Qltb 0.7 s) eqn:H7; [| exact Hs].
    apply Qltb_lt in H7. apply Qmin_1_bounds.
    specialize (Hpow (s - 0.7) 0.7). lra.
  - assert (Hst' : Water.stress_threshold r < sm).
    { apply Qnot_le_lt. intros Hle. apply Qle_bool_iff in Hle. congruence. }
    split; [| lra]. split.
    + apply Qdiv_nonneg; lra.
    + apply Qdiv_le_1; lra.
Qed.

End WaterFacts.

(** ** Saturated readings (C1) *)

Lemma clamp_unit_of_pos x : 0 < x -> Qmin 1.0 x == clamp x 0 1.
Proof.
  intros Hx. unfold clamp.
  destruct (Q.min_spec 1.0 x) as [[H1 E1] | [H1 E1]];
    destruct (Q.min_spec 1 x) as [[H2 E2] | [H2 E2]];
    rewrite E1, E2;
    [ destruct (Q.max_spec 0 1) as [[H3 E3] | [H3 E3]]
    | destruct (Q.max_spec 0 x) as [[H3 E3] | [H3 E3]]
    | destruct (Q.max_spec 0 1) as [[H3 E3] | [H3 E3]]
    | destruct (Q.max_spec 0 x) as [[H3 E3] | [H3 E3]] ];
    rewrite E3; lra.
Qed.

(** C1, at a concrete payload: a saturated temperate-forest reading with
    a severe leaf water potential gets [is_saturated = true] and a stress
    level of 0.2, not 0: the leaf adjustment has been applied. *)
Lemma saturated_stress_counterexample :
  exists a,
    Water.analyze_water_stress pow_sample (PNum 60) (PStr "temperate_forest")
      (PDict {[ "leaf_water_potential" := -3 ]}) = inr a /\
    Water.is_saturated a = true /\
    Water.stress_level a == 0.2 /\
    ~ Water.stress_level a == 0.
Proof.
  eexists. split; [vm_compute; reflexivity |].
  cbn. split; [reflexivity |]. split; [reflexivity | discriminate].
Qed.

(** C1, amended: for a soil moisture above the ecosystem's saturation
    threshold, [analyze_water_stress] returns [is_saturated = true] and
    [saturation_level = clamp((soil_moisture - saturation_threshold) /
    (100 - saturation_threshold), 0, 1)]; the stress level starts at 0 and
    the secondary-indicator adjustments are applied to it as for any other
    reading, so it is 0 when no indicators are supplied (or the dict is
    empty) and the adjusted value of 0 otherwise. *)
Theorem saturated_analysis (fpow : Q -> Q -> Q)
    (soil_moisture : Q) (eco : string) (ind : option (gmap string Q))
    (r : Water.MoistureRanges) :
  Water.ecosystem_moisture_ranges !! eco = Some r ->
  Water.saturation_threshold r < soil_moisture ->
  exists a,
    Water.analyze_water_stress fpow (PNum soil_moisture) (PStr eco) (indicators_value ind)
      = inr a /\
    Water.is_saturated a = true /\
    Water.saturation_level a ==
      clamp ((soil_moisture - Water.saturation_threshold r)
             / (100 - Water.saturation_threshold r)) 0 1 /\
    Water.stress_level a = from_option (Water.integrate_indicators 0.0) 0.0 ind /\
    (ind = None \/ ind = Some ∅ -> Water.stress_level a == 0).
Proof.
  intros Hr Hsat.
  destruct (moisture_ranges_ordered _ _ Hr) as (_ & _ & _ & _ & H100).
  unfold Water.analyze_water_stress. cbn [table_lookup as_num]. rewrite Hr.
  rewrite (moisture_score_saturated fpow r soil_moisture Hsat).
  assert (Hclamp :
    Qmin 1.0 ((soil_moisture - Water.saturation_threshold r)
              / (100 - Water.saturation_threshold r)) ==
    clamp ((soil_moisture - Water.saturation_threshold r)
           / (100 - Water.saturation_threshold r)) 0 1).
  { apply clamp_unit_of_pos, Qdiv_pos; lra. }
  destruct ind as [d |]; cbn [indicators_value truthy].
  - destruct (bool_decide (d = ∅)) eqn:Hd; cbn [negb].
    + apply bool_decide_eq_true in Hd. subst d.
      eexists. split; [reflexivity |]. cbn.
      split; [reflexivity |]. split; [exact Hclamp |].
      split; [symmetry; apply integrate_indicators_empty | intros _; reflexivity].
    + eexists. split; [reflexivity |]. cbn.
      split; [reflexivity |]. split; [exact Hclamp |].
      split; [reflexivity |].
      intros [H | H]; [discriminate |].
      apply bool_decide_eq_false in Hd. congruence.
  - eexists. split; [reflexivity |]. cbn.
    split; [reflexivity |]. split; [exact Hclamp |].
    split; [reflexivity | intros _; reflexivity].
Qed.

Lemma saturated_analysis_witness :
  Water.ecosystem_moisture_ranges !! "wetland"
    = Some {| Water.optimal := (60, 85); Water.stress_threshold := 50;
              Water.saturation_threshold := 95 |} /\
  exists a,
    Water.analyze_water_stress pow_sample (PNum 98) (PStr "wetland")
      (indicators_value (Some {[ "stream_flow" := 0.3 ]})) = inr a /\
    Water.is_saturated a = true /\
    Water.saturation_level a == clamp ((98 - 95) / (100 - 95)) 0 1 /\
    Water.stress_level a
      = from_option (Water.integrate_indicators 0.0) 0.0 (Some {[ "stream_flow" := 0.3 ]}) /\
    (Some ({[ "stream_flow" := 0.3 ]} : gmap string Q) = None \/
     Some ({[ "stream_flow" := 0.3 ]} : gmap string Q) = Some ∅ ->
     Water.stress_level a == 0).
Proof.
  split; [vm_compute; reflexivity |].
  apply (saturated_analysis pow_sample 98 "wetland" (Some {[ "stream_flow" := 0.3 ]})
           {| Water.optimal := (60, 85); Water.stress_threshold := 50;
              Water.saturation_threshold := 95 |}).
  - vm_compute; reflexivity.
  - reflexivity.
Defined.

(** ** Pulse count of the tension pattern (C3) *)

(** C3, at a concrete stress level: for [stress_level = 0.45] the tension
    pattern has [pulse_count = 2], while [clamp(round(0.45 * 6), 2, 5)] is
    3, since [0.45 * 6 = 2.7] rounds to 3 and truncates to 2. *)
Lemma pulse_count_counterexample :
  Water.type (Water.generate_feedback_pattern pow_sample 0.45 false 0.0 None) = "tension" /\
  Water.pulse_count (Water.generate_feedback_pattern pow_sample 0.45 false 0.0 None) = 2%Z /\
  spec_pulse_count 0.45 = 3%Z.
Proof. repeat split; vm_compute; reflexivity. Qed.

(** C3, amended: in the tension branch the pulse count is
    [clamp(int(stress_level * 6), 2, 5)]: [stress_level * 6] truncated
    toward zero, then clamped between 2 and 5. *)
Theorem tension_pulse_count (fpow : Q -> Q -> Q)
    (stress_level : Q) (is_saturated : bool) (saturation_level : Q)
    (previous_stress : option Q) :
  Water.type (Water.generate_feedback_pattern fpow stress_level is_saturated
                saturation_level previous_stress) = "tension" ->
  Water.pulse_count (Water.generate_feedback_pattern fpow stress_level is_saturated
                       saturation_level previous_stress)
    = clampZ (py_int (stress_level * 6)) 2 5.
Proof.
  unfold Water.generate_feedback_pattern, clampZ.
  destruct previous_stress as [prev |].
  - destruct (Qltb stress_level prev && Qltb 0.3 prev && Qltb stress_level 0.3);
      [cbn; discriminate |].
    destruct (Qeq_bool stress_level 0 && negb is_saturated); [cbn; discriminate |].
    destruct is_saturated; [cbn; discriminate |]. reflexivity.
  - destruct (Qeq_bool stress_level 0 && negb is_saturated); [cbn; discriminate |].
    destruct is_saturated; [cbn; discriminate |]. reflexivity.
Qed.

Lemma tension_pulse_count_witness :
  Water.type (Water.generate_feedback_pattern pow_sample 0.9 false 0.0 (Some 0.5)) = "tension" /\
  Water.pulse_count (Water.generate_feedback_pattern pow_sample 0.9 false 0.0 (Some 0.5))
    = clampZ (py_int (0.9 * 6)) 2 5.
Proof.
  split; [vm_compute; reflexivity |].
  apply (tension_pulse_count pow_sample 0.9 false 0.0 (Some 0.5)).
  vm_compute; reflexivity.
Defined.

(** The pulse count by stress band: 2 below 0.5, 3 below 2/3, 4 below 5/6,
    and 5 from there on. *)
Lemma py_int_floor x : 0 <= x -> py_int x = Qfloor x.
Proof.
  destruct x as [n d]. unfold Qle, py_int, Qfloor. cbn. intros H.
  apply Z.quot_div_nonneg; lia.
Qed.

Lemma Qfloor_lt_const x (k : Z) : x < inject_Z k -> (Qfloor x < k)%Z.
Proof.
  intros H. rewrite Zlt_Qlt. pose proof (Qfloor_le x). lra.
Qed.

Lemma Qfloor_ge_const x (k : Z) : inject_Z k <= x -> (k <= Qfloor x)%Z.
Proof.
  intros H. apply Z.lt_succ_r. rewrite Zlt_Qlt.
  pose proof (Qlt_floor x) as Hx. unfold Z.succ. lra.
Qed.

Lemma tension_pulse_count_bands (s : Q) :
  0 <= s ->
  clampZ (py_int (s * 6)) 2 5 =
    if Qltb s 0.5 then 2%Z
    else if Qltb s (2 # 3) then 3%Z
    else if Qltb s (5 # 6) then 4%Z
    else 5%Z.
Proof.
  intros Hs. rewrite py_int_floor by lra. unfold clampZ.
  destruct (Qltb s 0.5) eqn:H1.
  { apply Qltb_lt in H1.
    assert (Qfloor (s * 6) < 3)%Z by (apply Qfloor_lt_const; unfold inject_Z; lra). lia. }
  apply Qltb_ge in H1.
  assert (3 <= Qfloor (s * 6))%Z by (apply Qfloor_ge_const; unfold inject_Z; lra).
  destruct (Qltb s (2 # 3)) eqn:H2.
  { apply Qltb_lt in H2.
    assert (Qfloor (s * 6) < 4)%Z by (apply Qfloor_lt_const; unfold inject_Z; lra). lia. }
  apply Qltb_ge in H2.
  assert (4 <= Qfloor (s * 6))%Z by (apply Qfloor_ge_const; unfold inject_Z; lra).
  destruct (Qltb s (5 # 6)) eqn:H5.
  { apply Qltb_lt in H5.
    assert (Qfloor (s * 6) < 5)%Z by (apply Qfloor_lt_const; unfold inject_Z; lra). lia. }
  apply Qltb_ge in H5.
  assert (5 <= Qfloor (s * 6))%Z by (apply Qfloor_ge_const; unfold inject_Z; lra).
  lia.
Qed.

(** ** The two [translate] operations, step by step *)

Lemma water_translate_unfold (fpow : Q -> Q -> Q) now sd ts (st : Water.Readings) :
  Water.translate fpow now sd ts st =
  if is_none (py_get sd "soil_moisture") || is_none (py_get sd "ecosystem_type")
  then (inl MissingSensorData, st)
  else
    match Water.analyze_water_stress fpow (py_get sd "soil_moisture")
            (py_get sd "ecosystem_type") (py_get sd "additional_indicators") with
    | inl e => (inl e, st)
    | inr a =>
        let feedback :=
          Water.generate_feedback_pattern fpow (Water.stress_level a)
            (Water.is_saturated a) (Water.saturation_level a)
            (Water.prev_stress_level st) in
        (inr match Water.prev_stress_level st with
             | Some previous_stress =>
                 let trend := Water.stress_level a - previous_stress in
                 if Qltb 0.1 (Qabs trend) then
                   Water.set_trend feedback
                     {| direction := if Qltb trend 0 then "improving" else "worsening";
                        magnitude := Qabs trend |}
                 else feedback
             | None => feedback
             end,
         {| Water.prev_soil_moisture := py_get sd "soil_moisture";
            Water.prev_stress_level := Some (Water.stress_level a);
            Water.prev_timestamp := Some (timestamp_or ts now) |})
    end.
Proof.
  unfold Water.translate, bind, raise, ret, get, put, lift.
  destruct (is_none (py_get sd "soil_moisture") || is_none (py_get sd "ecosystem_type"));
    [reflexivity |].
  destruct (Water.analyze_water_stress fpow _ _ _) as [e | a]; [reflexivity |].
  destruct (Water.prev_stress_level st) as [prev |]; [| reflexivity].
  cbv zeta. destruct (Qltb 0.1 _); reflexivity.
Qed.

Lemma biodiversity_translate_unfold now sd ts (st : Biodiversity.Readings) :
  Biodiversity.translate now sd ts st =
  if Nat.eqb (size (Biodiversity.metrics_of sd)) 0 || is_none (py_get sd "ecosystem_type")
  then (inl MissingSensorData, st)
  else
    match Biodiversity.analyze_biodiversity (Biodiversity.metrics_of sd)
            (py_get sd "ecosystem_type") with
    | inl e => (inl e, st)
    | inr depletion_level =>
        let feedback :=
          Biodiversity.generate_feedback_pattern depletion_level
            (Biodiversity.prev_depletion_level st) in
        (inr match Biodiversity.prev_depletion_level st with
             | Some previous_depletion =>
                 let trend := depletion_level - previous_depletion in
                 if Qltb 0.05 (Qabs trend) then
                   Biodiversity.set_trend feedback
                     {| direction := if Qltb trend 0 then "improving" else "worsening";
                        magnitude := Qabs trend |}
                 else feedback
             | None => feedback
             end,
         {| Biodiversity.prev_depletion_level := Some depletion_level;
            Biodiversity.prev_timestamp := Some (timestamp_or ts now) |})
    end.
Proof.
  unfold Biodiversity.translate, bind, raise, ret, get, put, lift.
  destruct (Nat.eqb _ 0 || is_none (py_get sd "ecosystem_type")); [reflexivity |].
  destruct (Biodiversity.analyze_biodiversity _ _) as [e | d]; [reflexivity |].
  destruct (Biodiversity.prev_depletion_level st) as [prev |]; [| reflexivity].
  cbv zeta. destruct (Qltb 0.05 _); reflexivity.
Qed.

(** [generate_feedback_pattern] never sets the [trend] key itself. *)
Lemma water_generate_no_trend fpow s sat sl prev :
  Water.trend (Water.generate_feedback_pattern fpow s sat sl prev) = None.
Proof.
  unfold Water.generate_feedback_pattern.
  destruct prev as [p |];
    [destruct (Qltb s p && Qltb 0.3 p && Qltb s 0.3) |];
    try reflexivity;
    destruct (Qeq_bool s 0 && negb sat); try reflexivity;
    destruct sat; reflexivity.
Qed.

Lemma biodiversity_generate_no_trend d prev :
  Biodiversity.trend (Biodiversity.generate_feedback_pattern d prev) = None.
Proof.
  unfold Biodiversity.generate_feedback_pattern.
  destruct (match prev with Some p => _ | None => false end); [reflexivity |].
  destruct (Qltb d 0.2); [reflexivity |].
  destruct (Qltb d 0.5); reflexivity.
Qed.

(** ** Failure leaves the readings untouched (C5) *)

Lemma water_failure_keeps_state fpow now sd ts st e st' :
  Water.translate fpow now sd ts st = (inl e, st') -> st' = st.
Proof.
  rewrite water_translate_unfold.
  destruct (is_none _ || is_none _); [congruence |].
  destruct (Water.analyze_water_stress fpow _ _ _); [congruence | discriminate].
Qed.

Lemma biodiversity_failure_keeps_state now sd ts st e st' :
  Biodiversity.translate now sd ts st = (inl e, st') -> st' = st.
Proof.
  rewrite biodiversity_translate_unfold.
  destruct (Nat.eqb _ 0 || is_none _); [congruence |].
  destruct (Biodiversity.analyze_biodiversity _ _); [congruence | discriminate].
Qed.

(** C5: a [translate] call that fails, on either translator and for
    whatever reason (missing required keys, unknown ecosystem type),
    leaves [previous_readings] exactly as they were before the call. *)
Theorem failed_translate_keeps_readings (fpow : Q -> Q -> Q) :
  (forall now sd ts (st st' : Water.Readings) e,
      Water.translate fpow now sd ts st = (inl e, st') -> st' = st) /\
  (forall now sd ts (st st' : Biodiversity.Readings) e,
      Biodiversity.translate now sd ts st = (inl e, st') -> st' = st).
Proof.
  split; intros now sd ts st st' e H.
  - exact (water_failure_keeps_state fpow now sd ts st e st' H).
  - exact (biodiversity_failure_keeps_state now sd ts st e st' H).
Qed.

Lemma failed_translate_keeps_readings_witness :
  let stw := {| Water.prev_soil_moisture := PNum 20;
                Water.prev_stress_level := Some 0.5;
                Water.prev_timestamp := Some 7 |} in
  let stb := {| Biodiversity.prev_depletion_level := Some 0.4;
                Biodiversity.prev_timestamp := Some 7 |} in
  let missing_w : gmap string pyval := {[ "soil_moisture" := PNum 18 ]} in
  let unknown_w : gmap string pyval :=
    {[ "soil_moisture" := PNum 18; "ecosystem_type" := PStr "tundra" ]} in
  let missing_b : gmap string pyval := {[ "ecosystem_type" := PStr "grassland" ]} in
  let unknown_b : gmap string pyval :=
    {[ "species_count" := PNum 12; "ecosystem_type" := PStr "tundra" ]} in
  (fst (Water.translate pow_sample 9 missing_w None stw) = inl MissingSensorData /\
   snd (Water.translate pow_sample 9 missing_w None stw) = stw) /\
  (fst (Water.translate pow_sample 9 unknown_w None stw) = inl UnknownEcosystemType /\
   snd (Water.translate pow_sample 9 unknown_w None stw) = stw) /\
  (fst (Biodiversity.translate 9 missing_b None stb) = inl MissingSensorData /\
   snd (Biodiversity.translate 9 missing_b None stb) = stb) /\
  (fst (Biodiversity.translate 9 unknown_b None stb) = inl UnknownEcosystemType /\
   snd (Biodiversity.translate 9 unknown_b None stb) = stb).
Proof.
  intros stw stb missing_w unknown_w missing_b unknown_b.
  pose proof (failed_translate_keeps_readings pow_sample) as [Hw Hb].
  split; [| split; [| split]]; (split; [vm_compute; reflexivity |]).
  - apply (Hw 9 missing_w None stw _ MissingSensorData). vm_compute; reflexivity.
  - apply (Hw 9 unknown_w None stw _ UnknownEcosystemType). vm_compute; reflexivity.
  - apply (Hb 9 missing_b None stb _ MissingSensorData). vm_compute; reflexivity.
  - apply (Hb 9 unknown_b None stb _ UnknownEcosystemType). vm_compute; reflexivity.
Defined.

(** ** Range of the severity levels (C2) *)

(** The water translator's levels stay in [[0,1]]: for a soil moisture in
    [[0,100]], any configured ecosystem and any indicators, provided [**]
    maps a non-negative base to a non-negative power. *)
Lemma water_levels_in_unit_interval (fpow : Q -> Q -> Q) sm eco ind a :
  (forall x y, 0 <= x -> 0 <= fpow x y) ->
  0 <= sm <= 100 ->
  Water.analyze_water_stress fpow (PNum sm) eco ind = inr a ->
  0 <= Water.stress_level a <= 1 /\ 0 <= Water.saturation_level a <= 1.
Proof.
  intros Hpow Hsm. unfold Water.analyze_water_stress.
  destruct eco as [| x | eco | d]; cbn [table_lookup]; try discriminate.
  destruct (Water.ecosystem_moisture_ranges !! eco) as [r |] eqn:Hr; [| discriminate].
  cbn [as_num].
  destruct (moisture_score_bounds fpow eco r sm Hpow Hr Hsm) as [Hs Hl].
  destruct (truthy ind).
  - destruct ind as [| x | s | d]; try discriminate.
    intros H. injection H as <-. cbn.
    split; [apply integrate_indicators_bounds, Hs | exact Hl].
  - intros H. injection H as <-. split; assumption.
Qed.

(** C2, at a concrete payload: a temperate-forest survey with a single
    species counted has [depletion_level = 1.08], above 1; the
    below-threshold score [min(1, (10 - 1) / 10) = 0.9] is multiplied by
    the weight 1.2 after the clamp, and the mean of one score is that
    score. *)
Theorem depletion_level_above_one :
  exists d,
    Biodiversity.analyze_biodiversity {[ "species_count" := PNum 1 ]}
      (PStr "temperate_forest") = inr d /\
    d == 1.08 /\ 1 < d.
Proof.
  eexists. split; [vm_compute; reflexivity |]. split; reflexivity.
Qed.

(** ** The recovery gate (C6) *)

Lemma water_analysis_validates fpow sm eco ind a :
  Water.analyze_water_stress fpow sm eco ind = inr a ->
  is_none sm || is_none eco = false.
Proof.
  unfold Water.analyze_water_stress.
  destruct eco as [| x | s | d]; cbn [table_lookup]; intros H; try discriminate H.
  destruct sm; try reflexivity.
  destruct (Water.ecosystem_moisture_ranges !! s); discriminate H.
Qed.

Lemma water_set_trend_fields p t :
  Water.type (Water.set_trend p t) = Water.type p /\
  Water.rhythm (Water.set_trend p t) = Water.rhythm p /\
  Water.pulse_count (Water.set_trend p t) = Water.pulse_count p /\
  Water.emotion (Water.set_trend p t) = Water.emotion p.
Proof. repeat split. Qed.

(** Whatever the trend, [translate] returns the pattern
    [generate_feedback_pattern] built, up to the [trend] key. *)
Lemma water_translate_ok fpow now sd ts st a :
  Water.analyze_water_stress fpow (py_get sd "soil_moisture")
    (py_get sd "ecosystem_type") (py_get sd "additional_indicators") = inr a ->
  exists p st',
    Water.translate fpow now sd ts st = (inr p, st') /\
    Water.prev_stress_level st' = Some (Water.stress_level a) /\
    let g := Water.generate_feedback_pattern fpow (Water.stress_level a)
               (Water.is_saturated a) (Water.saturation_level a)
               (Water.prev_stress_level st) in
    Water.type p = Water.type g /\ Water.rhythm p = Water.rhythm g /\
    Water.pulse_count p = Water.pulse_count g /\ Water.emotion p = Water.emotion g.
Proof.
  intros Ha. rewrite water_translate_unfold, (water_analysis_validates _ _ _ _ _ Ha), Ha.
  eexists _, _. split; [reflexivity |]. split; [reflexivity |]. cbv zeta.
  destruct (Water.prev_stress_level st) as [prev |]; [| repeat split].
  destruct (Qltb 0.1 _); [apply water_set_trend_fields | repeat split].
Qed.

Lemma water_generate_recovery fpow s sat sl prev :
  s < prev -> 0.3 < prev -> s < 0.3 ->
  Water.type (Water.generate_feedback_pattern fpow s sat sl (Some prev)) = "recovery".
Proof.
  intros H1 H2 H3. unfold Water.generate_feedback_pattern.
  apply Qltb_lt in H1, H2, H3. rewrite H1, H2, H3. reflexivity.
Qed.

Lemma water_generate_tension fpow s sl prev :
  0.3 <= s -> 
  Water.type (Water.generate_feedback_pattern fpow s false sl prev) = "tension".
Proof.
  intros H. unfold Water.generate_feedback_pattern.
  assert (H3 : Qltb s 0.3 = false) by (apply Qltb_ge, H).
  assert (H0 : Qeq_bool s 0 = false).
  { apply not_true_is_false. intros E. apply Qeq_bool_iff in E. lra. }
  rewrite H3, H0. destruct prev as [p |]; [| reflexivity].
  rewrite andb_false_r. reflexivity.
Qed.

(** C6: on a water translator whose stored previous stress level is 0.5,
    a call that analyses to an unsaturated stress level of 0.25 returns a
    pattern of type [recovery]; one that analyses to 0.31 fails the
    [stress_level < 0.3] gate and returns a pattern of type [tension]. *)
Theorem recovery_gate_exact (fpow : Q -> Q -> Q) now sd ts (st : Water.Readings) prev a :
  Water.prev_stress_level st = Some prev ->
  prev == 0.5 ->
  Water.analyze_water_stress fpow (py_get sd "soil_moisture")
    (py_get sd "ecosystem_type") (py_get sd "additional_indicators") = inr a ->
  Water.is_saturated a = false ->
  exists p st',
    Water.translate fpow now sd ts st = (inr p, st') /\
    (Water.stress_level a == 0.25 -> Water.type p = "recovery") /\
    (Water.stress_level a == 0.31 -> Water.type p = "tension").
Proof.
  intros Hprev Hhalf Ha Hsat.
  destruct (water_translate_ok fpow now sd ts st a Ha) as (p & st' & Ht & _ & Hty & _).
  exists p, st'. split; [exact Ht |].
  rewrite Hty, Hprev, Hsat. split; intros Hs.
  - apply water_generate_recovery; lra.
  - apply water_generate_tension; lra.
Qed.

Lemma recovery_gate_exact_witness :
  let before : gmap string pyval :=
    list_to_map [("soil_moisture", PNum 27.5); ("ecosystem_type", PStr "temperate_forest")] in
  let st := snd (Water.translate pow_sample 1 before None Water.init) in
  let sd_recovery : gmap string pyval :=
    list_to_map [("soil_moisture", PNum 28.75); ("ecosystem_type", PStr "temperate_forest")] in
  let sd_tension : gmap string pyval :=
    list_to_map [("soil_moisture", PNum 28.45); ("ecosystem_type", PStr "temperate_forest")] in
  (exists prev, Water.prev_stress_level st = Some prev /\ prev == 0.5) /\
  (exists p st', Water.translate pow_sample 2 sd_recovery None st = (inr p, st') /\
                 Water.type p = "recovery") /\
  (exists p st', Water.translate pow_sample 2 sd_tension None st = (inr p, st') /\
                 Water.type p = "tension").
Proof.
  intros before st sd_recovery sd_tension.
  assert (Hprev : Water.prev_stress_level st = Some ((30 - 27.5) / (30 - 25)))
    by (vm_compute; reflexivity).
  split; [eexists; split; [exact Hprev | reflexivity] |].
  split.
  - destruct (recovery_gate_exact pow_sample 2 sd_recovery None st _
                {| Water.stress_level := (30 - 28.75) / (30 - 25);
                   Water.is_saturated := false; Water.saturation_level := 0.0 |}
                Hprev) as (p & st' & Ht & Hr & _);
      [reflexivity | vm_compute; reflexivity | reflexivity |].
    exists p, st'. split; [exact Ht | apply Hr; reflexivity].
  - destruct (recovery_gate_exact pow_sample 2 sd_tension None st _
                {| Water.stress_level := (30 - 28.45) / (30 - 25);
                   Water.is_saturated := false; Water.saturation_level := 0.0 |}
                Hprev) as (p & st' & Ht & _ & Hn);
      [reflexivity | vm_compute; reflexivity | reflexivity |].
    exists p, st'. split; [exact Ht | apply Hn; reflexivity].
Defined.

(** ** The temperate-forest drought scenario (C7) *)

(** C7: for [soil_moisture = 18] in a temperate forest with indicators
    [{leaf_water_potential: -1.8, stream_flow: 0.3, precipitation_deficit: 25}]
    the stress level is built as 0.28 (base), 0.38 (moderate leaf stress),
    0.494 (low stream flow) and stays there (deficit of 25 is not above
    30); the reading is not saturated, and whatever the translator
    remembers the pattern has type [tension], rhythm [intermittent],
    pulse count 2 and emotion [concern]. *)
Theorem temperate_forest_scenario (fpow : Q -> Q -> Q) now ts (st : Water.Readings) :
  let leaf : gmap string Q := list_to_map [("leaf_water_potential", -1.8)] in
  let leaf_stream : gmap string Q :=
    list_to_map [("leaf_water_potential", -1.8); ("stream_flow", 0.3)] in
  let ind : gmap string Q :=
    list_to_map [("leaf_water_potential", -1.8); ("stream_flow", 0.3);
                 ("precipitation_deficit", 25)] in
  let sd : gmap string pyval :=
    list_to_map [("soil_moisture", PNum 18); ("ecosystem_type", PStr "temperate_forest");
                 ("additional_indicators", PDict ind)] in
  (exists a0, Water.analyze_water_stress fpow (PNum 18) (PStr "temperate_forest") PNone = inr a0 /\
              Water.stress_level a0 == 0.28) /\
  Water.integrate_indicators 0.28 leaf == 0.38 /\
  Water.integrate_indicators 0.28 leaf_stream == 0.494 /\
  Water.integrate_indicators 0.28 ind == 0.494 /\
  exists a p st',
    Water.analyze_water_stress fpow (PNum 18) (PStr "temperate_forest") (PDict ind) = inr a /\
    Water.stress_level a == 0.494 /\
    Water.is_saturated a = false /\
    Water.translate fpow now sd ts st = (inr p, st') /\
    Water.prev_stress_level st' = Some (Water.stress_level a) /\
    Water.type p = "tension" /\
    Water.rhythm p = "intermittent" /\
    Water.pulse_count p = 2%Z /\
    Water.emotion p = "concern".
Proof.
  intros leaf leaf_stream ind sd.
  split; [eexists; split; [vm_compute; reflexivity | reflexivity] |].
  split; [vm_compute; reflexivity |].
  split; [vm_compute; reflexivity |].
  split; [vm_compute; reflexivity |].
  assert (Ha : Water.analyze_water_stress fpow (py_get sd "soil_moisture")
                 (py_get sd "ecosystem_type") (py_get sd "additional_indicators")
               = inr {| Water.stress_level := 1235 # 2500;
                        Water.is_saturated := false;
                        Water.saturation_level := 0.0 |})
    by (vm_compute; reflexivity).
  destruct (water_translate_ok fpow now sd ts st _ Ha)
    as (p & st' & Ht & Hst & Hty & Hrh & Hpc & Hem).
  exists {| Water.stress_level := 1235 # 2500; Water.is_saturated := false;
            Water.saturation_level := 0.0 |}, p, st'.
  split; [vm_compute; reflexivity |].
  split; [reflexivity |]. split; [reflexivity |].
  split; [exact Ht |]. split; [exact Hst |].
  cbn [Water.stress_level Water.is_saturated Water.saturation_level] in Hty, Hrh, Hpc, Hem.
  assert (Hg : forall prev,
    let g := Water.generate_feedback_pattern fpow (1235 # 2500) false 0.0 prev in
    Water.type g = "tension" /\ Water.rhythm g = "intermittent" /\
    Water.pulse_count g = 2%Z /\ Water.emotion g = "concern").
  { intros prev. unfold Water.generate_feedback_pattern.
    change (Qltb (1235 # 2500) 0.3) with false.
    change (Qeq_bool (1235 # 2500) 0 && negb false) with false.
    destruct prev as [q |]; [rewrite andb_false_r |]; cbv zeta; repeat split. }
  destruct (Hg (Water.prev_stress_level st)) as (G1 & G2 & G3 & G4).
  rewrite Hty, Hrh, Hpc, Hem. repeat split; assumption.
Qed.

(** ** Determinism (C8) *)

(** C8: the outcome of [translate] (the pattern, or the error) is a
    function of the payload and of the stored previous severity alone: two
    instances that hold the same previous severity return identical
    outcomes on the same [sensor_data] and [timestamp], whatever else they
    remember and whatever the clock reads, and they are left holding the
    same severity again. *)
Theorem translate_deterministic (fpow : Q -> Q -> Q) :
  (forall now1 now2 sd ts (st1 st2 : Water.Readings),
      Water.prev_stress_level st1 = Water.prev_stress_level st2 ->
      fst (Water.translate fpow now1 sd ts st1) = fst (Water.translate fpow now2 sd ts st2) /\
      Water.prev_stress_level (snd (Water.translate fpow now1 sd ts st1))
        = Water.prev_stress_level (snd (Water.translate fpow now2 sd ts st2))) /\
  (forall now1 now2 sd ts (st1 st2 : Biodiversity.Readings),
      Biodiversity.prev_depletion_level st1 = Biodiversity.prev_depletion_level st2 ->
      fst (Biodiversity.translate now1 sd ts st1) = fst (Biodiversity.translate now2 sd ts st2) /\
      Biodiversity.prev_depletion_level (snd (Biodiversity.translate now1 sd ts st1))
        = Biodiversity.prev_depletion_level (snd (Biodiversity.translate now2 sd ts st2))).
Proof.
  split; intros now1 now2 sd ts st1 st2 Hprev.
  - rewrite !water_translate_unfold.
    destruct (is_none _ || is_none _); [split; [reflexivity | exact Hprev] |].
    destruct (Water.analyze_water_stress fpow _ _ _) as [e | a];
      [split; [reflexivity | exact Hprev] |].
    cbv zeta. rewrite Hprev. split; reflexivity.
  - rewrite !biodiversity_translate_unfold.
    destruct (Nat.eqb _ 0 || is_none _); [split; [reflexivity | exact Hprev] |].
    destruct (Biodiversity.analyze_biodiversity _ _) as [e | d];
      [split; [reflexivity | exact Hprev] |].
    cbv zeta. rewrite Hprev. split; reflexivity.
Qed.

Lemma translate_deterministic_witness :
  let sdw : gmap string pyval :=
    list_to_map [("soil_moisture", PNum 22); ("ecosystem_type", PStr "temperate_forest")] in
  let w1 := {| Water.prev_soil_moisture := PNum 27; Water.prev_stress_level := Some 0.6;
               Water.prev_timestamp := Some 10 |} in
  let w2 := {| Water.prev_soil_moisture := PNum 12; Water.prev_stress_level := Some 0.6;
               Water.prev_timestamp := Some 99 |} in
  let sdb : gmap string pyval :=
    list_to_map [("species_count", PNum 14); ("ecosystem_type", PStr "temperate_forest")] in
  let b1 := {| Biodiversity.prev_depletion_level := Some 0.9;
               Biodiversity.prev_timestamp := Some 10 |} in
  let b2 := {| Biodiversity.prev_depletion_level := Some 0.9;
               Biodiversity.prev_timestamp := None |} in
  (Water.prev_stress_level w1 = Water.prev_stress_level w2 /\
   fst (Water.translate pow_sample 100 sdw None w1)
     = fst (Water.translate pow_sample 200 sdw None w2)) /\
  (Biodiversity.prev_depletion_level b1 = Biodiversity.prev_depletion_level b2 /\
   fst (Biodiversity.translate 100 sdb None b1)
     = fst (Biodiversity.translate 200 sdb None b2)).
Proof.
  intros sdw w1 w2 sdb b1 b2.
  pose proof (translate_deterministic pow_sample) as [Hw Hb].
  split; (split; [reflexivity |]).
  - apply (Hw 100 200 sdw None w1 w2). reflexivity.
  - apply (Hb 100 200 sdb None b1 b2). reflexivity.
Defined.

(** ** Unknown ecosystem types (C9) *)

(** C9, at a concrete payload: a water payload that names the
    unconfigured ecosystem type [tundra] and has no [soil_moisture] fails
    with the missing-data error, not with the unknown-ecosystem one. *)
Lemma unknown_ecosystem_counterexample :
  let sd : gmap string pyval := {[ "ecosystem_type" := PStr "tundra" ]} in
  py_get sd "ecosystem_type" = PStr "tundra" /\
  Water.ecosystem_moisture_ranges !! "tundra" = None /\
  fst (Water.translate pow_sample 0 sd None Water.init) = inl MissingSensorData /\
  fst (Water.translate pow_sample 0 sd None Water.init) <> inl UnknownEcosystemType.
Proof.
  intros sd. split; [reflexivity |]. split; [vm_compute; reflexivity |].
  split; [vm_compute; reflexivity | vm_compute; discriminate].
Qed.

(** C9, amended: a payload whose ecosystem type is not configured never
    yields a pattern, and the readings are left as they were.  The water
    translator fails with [UnknownEcosystemType] when [soil_moisture] is
    present and with [MissingSensorData] when it is absent; the
    biodiversity translator fails with [UnknownEcosystemType] when the
    payload has a key other than [ecosystem_type] and [timestamp], and
    with [MissingSensorData] when it has none. *)
Theorem unknown_ecosystem_fails (fpow : Q -> Q -> Q) :
  (forall now sd ts (st : Water.Readings) eco,
      py_get sd "ecosystem_type" = PStr eco ->
      Water.ecosystem_moisture_ranges !! eco = None ->
      Water.translate fpow now sd ts st =
        (inl (if is_none (py_get sd "soil_moisture")
              then MissingSensorData else UnknownEcosystemType), st)) /\
  (forall now sd ts (st : Biodiversity.Readings) eco,
      py_get sd "ecosystem_type" = PStr eco ->
      Biodiversity.diversity_thresholds !! eco = None ->
      Biodiversity.translate now sd ts st =
        (inl (if Nat.eqb (size (Biodiversity.metrics_of sd)) 0
              then MissingSensorData else UnknownEcosystemType), st)).
Proof.
  split; intros now sd ts st eco Heco Hnone.
  - rewrite water_translate_unfold, Heco. cbn [is_none]. rewrite orb_false_r.
    destruct (is_none (py_get sd "soil_moisture")); [reflexivity |].
    unfold Water.analyze_water_stress. cbn [table_lookup]. rewrite Hnone. reflexivity.
  - rewrite biodiversity_translate_unfold, Heco. cbn [is_none]. rewrite orb_false_r.
    destruct (Nat.eqb _ 0); [reflexivity |].
    unfold Biodiversity.analyze_biodiversity. cbn [table_lookup]. rewrite Hnone. reflexivity.
Qed.

Lemma unknown_ecosystem_fails_witness :
  let sdw : gmap string pyval :=
    list_to_map [("soil_moisture", PNum 40); ("ecosystem_type", PStr "tundra")] in
  let sdb : gmap string pyval :=
    list_to_map [("bird_species", PNum 9); ("ecosystem_type", PStr "rainforest")] in
  (py_get sdw "ecosystem_type" = PStr "tundra" /\
   Water.ecosystem_moisture_ranges !! "tundra" = None /\
   Water.translate pow_sample 5 sdw None Water.init
     = (inl (if is_none (py_get sdw "soil_moisture")
             then MissingSensorData else UnknownEcosystemType), Water.init)) /\
  (py_get sdb "ecosystem_type" = PStr "rainforest" /\
   Biodiversity.diversity_thresholds !! "rainforest" = None /\
   Biodiversity.translate 5 sdb None Biodiversity.init
     = (inl (if Nat.eqb (size (Biodiversity.metrics_of sdb)) 0
             then MissingSensorData else UnknownEcosystemType), Biodiversity.init)).
Proof.
  intros sdw sdb.
  pose proof (unknown_ecosystem_fails pow_sample) as [Hw Hb].
  split; (split; [reflexivity |]); (split; [vm_compute; reflexivity |]).
  - apply (Hw 5 sdw None Water.init "tundra"); [reflexivity | vm_compute; reflexivity].
  - apply (Hb 5 sdb None Biodiversity.init "rainforest");
      [reflexivity | vm_compute; reflexivity].
Defined.

(** ** Unrecognised biodiversity metrics (C10) *)

Lemma metrics_lookup (sd : gmap string pyval) k :
  k <> "ecosystem_type" -> k <> "timestamp" ->
  Biodiversity.metrics_of sd !! k = sd !! k.
Proof.
  intros H1 H2. unfold Biodiversity.metrics_of.
  destruct (sd !! k) as [v |] eqn:Hk.
  - apply map_lookup_filter_Some. split; [exact Hk |]. cbn.
    rewrite !elem_of_cons. intros [E | [E | E]]; [congruence | congruence |].
    apply elem_of_nil in E. exact E.
  - apply map_lookup_filter_None. left. exact Hk.
Qed.

Lemma metrics_nonempty (sd : gmap string pyval) :
  Nat.eqb (size (Biodiversity.metrics_of sd)) 0 = false <->
  exists k, k <> "ecosystem_type" /\ k <> "timestamp" /\ is_Some (sd !! k).
Proof.
  rewrite Nat.eqb_neq, map_size_ne_0_lookup. split.
  - intros [k [v Hk]]. unfold Biodiversity.metrics_of in Hk.
    apply map_lookup_filter_Some in Hk as [Hk HP]. cbn in HP.
    exists k. rewrite !elem_of_cons in HP.
    split; [intros E; apply HP; left; exact E |].
    split; [intros E; apply HP; right; left; exact E |].
    exists v. exact Hk.
  - intros (k & H1 & H2 & Hk). exists k. rewrite metrics_lookup by assumption. exact Hk.
Qed.

Lemma analyze_biodiversity_default (data : gmap string pyval) eco th :
  Biodiversity.diversity_thresholds !! eco = Some th ->
  data !! "species_count" = None ->
  data !! "bird_species" = None ->
  data !! "insect_orders" = None ->
  data !! "shannon_index" = None ->
  data !! "acoustic_diversity" = None ->
  Biodiversity.analyze_biodiversity data (PStr eco) = inr 0.5.
Proof.
  intros Hth H1 H2 H3 H4 H5.
  unfold Biodiversity.analyze_biodiversity, Biodiversity.append_score.
  cbn [table_lookup]. rewrite Hth, H1, H2, H3, H4, H5. reflexivity.
Qed.

(** C10: the biodiversity translator's missing-data check rejects a
    payload exactly when [ecosystem_type] is absent or no key other than
    [ecosystem_type] and [timestamp] is present; and a first call for a
    configured ecosystem whose other keys are all unrecognised succeeds
    with the default depletion level 0.5 and the pattern of type
    [monotony] with emotion [concern]. *)
Theorem unrecognised_metrics_default now sd ts (st : Biodiversity.Readings) :
  (fst (Biodiversity.translate now sd ts st) = inl MissingSensorData <->
   py_get sd "ecosystem_type" = PNone \/
   ~ exists k, k <> "ecosystem_type" /\ k <> "timestamp" /\ is_Some (sd !! k)) /\
  (forall eco th,
      py_get sd "ecosystem_type" = PStr eco ->
      Biodiversity.diversity_thresholds !! eco = Some th ->
      (exists k, k <> "ecosystem_type" /\ k <> "timestamp" /\ is_Some (sd !! k)) ->
      (forall k, k ∈ ["species_count"; "bird_species"; "insect_orders";
                      "shannon_index"; "acoustic_diversity"] -> sd !! k = None) ->
      Biodiversity.prev_depletion_level st = None ->
      exists p,
        Biodiversity.translate now sd ts st =
          (inr p, {| Biodiversity.prev_depletion_level := Some 0.5;
                     Biodiversity.prev_timestamp := Some (timestamp_or ts now) |}) /\
        Biodiversity.type p = "monotony" /\
        Biodiversity.emotion p = "concern" /\
        Biodiversity.trend p = None).
Proof.
  split.
  - rewrite biodiversity_translate_unfold.
    destruct (Nat.eqb (size (Biodiversity.metrics_of sd)) 0) eqn:Hsz; cbn [orb].
    + split; [| reflexivity]. intros _. right. intros Hex.
      apply metrics_nonempty in Hex. congruence.
    + apply metrics_nonempty in Hsz.
      destruct (py_get sd "ecosystem_type") as [| x | s | d] eqn:Heco; cbn [is_none].
      * split; [left; reflexivity | reflexivity].
      * split; [| intros [H | H]; [discriminate H | contradiction]].
        unfold Biodiversity.analyze_biodiversity. cbn [table_lookup fst]. discriminate.
      * split; [| intros [H | H]; [discriminate H | contradiction]].
        destruct (Biodiversity.analyze_biodiversity _ _) as [e | q] eqn:Ha;
          cbn; [| discriminate].
        intros E. injection E as ->.
        unfold Biodiversity.analyze_biodiversity, Biodiversity.append_score in Ha.
        cbn [table_lookup] in Ha.
        destruct (Biodiversity.diversity_thresholds !! s); [| discriminate Ha].
        repeat (match type of Ha with
                | context [match ?m !! ?k with _ => _ end] =>
                    destruct (m !! k) as [[| ? | ? | ?] |]; cbn [as_num] in Ha;
                    try discriminate Ha
                end).
        all: match type of Ha with
             | context [match ?l with [] => _ | _ => _ end] => destruct l; discriminate Ha
             end.
      * split; [| intros [H | H]; [discriminate H | contradiction]].
        unfold Biodiversity.analyze_biodiversity. cbn [table_lookup fst]. discriminate.
  - intros eco th Heco Hth Hex Hnone Hfirst.
    rewrite biodiversity_translate_unfold, Heco.
    apply metrics_nonempty in Hex. rewrite Hex. cbn [orb is_none].
    rewrite (analyze_biodiversity_default _ eco th Hth).
    + rewrite Hfirst. eexists. split; [reflexivity |]. repeat split.
    + rewrite metrics_lookup by discriminate. apply Hnone. set_solver.
    + rewrite metrics_lookup by discriminate. apply Hnone. set_solver.
    + rewrite metrics_lookup by discriminate. apply Hnone. set_solver.
    + rewrite metrics_lookup by discriminate. apply Hnone. set_solver.
    + rewrite metrics_lookup by discriminate. apply Hnone. set_solver.
Qed.

Lemma unrecognised_metrics_default_witness :
  let sd : gmap string pyval :=
    list_to_map [("ecosystem_type", PStr "wetland"); ("site_name", PStr "north marsh");
                 ("timestamp", PNum 1700)] in
  exists p,
    Biodiversity.translate 42 sd None Biodiversity.init =
      (inr p, {| Biodiversity.prev_depletion_level := Some 0.5;
                 Biodiversity.prev_timestamp := Some (timestamp_or None 42) |}) /\
    Biodiversity.type p = "monotony" /\
    Biodiversity.emotion p = "concern" /\
    Biodiversity.trend p = None.
Proof.
  intros sd.
  apply (proj2 (unrecognised_metrics_default 42 sd None Biodiversity.init)
           "wetland"
           {| Biodiversity.species_count :=
                {| Biodiversity.optimal := (25, 60); Biodiversity.low_threshold := 15 |};
              Biodiversity.bird_species :=
                {| Biodiversity.optimal := (20, 40); Biodiversity.low_threshold := 12 |};
              Biodiversity.insect_orders :=
                {| Biodiversity.optimal := (8, 12); Biodiversity.low_threshold := 5 |};
              Biodiversity.shannon_index :=
                {| Biodiversity.optimal := (2.8, 4.5); Biodiversity.low_threshold := 2.2 |} |}).
  - reflexivity.
  - vm_compute; reflexivity.
  - exists "site_name". split; [discriminate |]. split; [discriminate |].
    exists (PStr "north marsh"). reflexivity.
  - intros k Hk. rewrite !elem_of_cons in Hk.
    destruct Hk as [-> | [-> | [-> | [-> | [-> | Hk]]]]];
      [reflexivity | reflexivity | reflexivity | reflexivity | reflexivity |].
    apply elem_of_nil in Hk. destruct Hk.
  - reflexivity.
Defined.

(** ** The trend sub-record (C4) *)

Section RunFacts.

Context {S P : Type} (step : Call -> M (S:=S) P) (level : S -> option Q).

Hypothesis step_failure : forall c s e s', step c s = (inl e, s') -> s' = s.
Hypothesis step_success : forall c s p s', step c s = (inr p, s') -> is_Some (level s').

(** The instance holds a severity exactly when it held one at the start
    or one of the calls made since succeeded. *)
Lemma run_level_is_Some calls s :
  is_Some (level (snd (run step calls s))) <->
  is_Some (level s) \/ Exists (fun r => is_ok r = true) (fst (run step calls s)).
Proof.
  revert s. induction calls as [| c rest IH]; intros s; cbn [run].
  - cbn. split; [intros H; left; exact H | intros [H | H]; [exact H | inversion H]].
  - destruct (step c s) as [r s1] eqn:Hstep.
    specialize (IH s1). destruct (run step rest s1) as [rs s2]. cbn [fst snd] in *.
    rewrite IH. destruct r as [e | p].
    + apply step_failure in Hstep. subst s1. split.
      * intros [H | H]; [left; exact H | right; apply Exists_cons_tl; exact H].
      * intros [H | H]; [left; exact H |].
        inversion H as [? ? Hhd | ? ? Htl]; [discriminate Hhd | right; exact Htl].
    + apply step_success in Hstep. split.
      * intros _. right. apply Exists_cons_hd. reflexivity.
      * intros _. left. exact Hstep.
Qed.

(** After calls that all failed the instance is as it was before them. *)
Lemma run_all_failed calls s :
  Forall (fun r => is_ok r = false) (fst (run step calls s)) ->
  snd (run step calls s) = s.
Proof.
  revert s. induction calls as [| c rest IH]; intros s; cbn [run]; [reflexivity |].
  destruct (step c s) as [r s1] eqn:Hstep.
  specialize (IH s1). destruct (run step rest s1) as [rs s2]. cbn [fst snd] in *.
  intros H. inversion H as [| ? ? Hhd Htl]; subst.
  destruct r as [e | p]; [| discriminate Hhd].
  apply step_failure in Hstep. subst s1. apply IH, Htl.
Qed.

End RunFacts.

Lemma water_trend_of (fpow : Q -> Q -> Q) now sd ts st p st' :
  Water.translate fpow now sd ts st = (inr p, st') ->
  exists new,
    Water.prev_stress_level st' = Some new /\
    Water.trend p =
      match Water.prev_stress_level st with
      | Some prev =>
          if Qltb 0.1 (Qabs (new - prev)) then
            Some {| direction := if Qltb (new - prev) 0 then "improving" else "worsening";
                    magnitude := Qabs (new - prev) |}
          else None
      | None => None
      end.
Proof.
  rewrite water_translate_unfold.
  destruct (is_none _ || is_none _); [discriminate |].
  destruct (Water.analyze_water_stress fpow _ _ _) as [e | a]; [discriminate |].
  cbv zeta. intros H. injection H as <- <-.
  exists (Water.stress_level a). split; [reflexivity |].
  destruct (Water.prev_stress_level st) as [prev |];
    [| apply water_generate_no_trend].
  destruct (Qltb 0.1 _); [reflexivity | apply water_generate_no_trend].
Qed.

Lemma biodiversity_trend_of now sd ts st p st' :
  Biodiversity.translate now sd ts st = (inr p, st') ->
  exists new,
    Biodiversity.prev_depletion_level st' = Some new /\
    Biodiversity.trend p =
      match Biodiversity.prev_depletion_level st with
      | Some prev =>
          if Qltb 0.05 (Qabs (new - prev)) then
            Some {| direction := if Qltb (new - prev) 0 then "improving" else "worsening";
                    magnitude := Qabs (new - prev) |}
          else None
      | None => None
      end.
Proof.
  rewrite biodiversity_translate_unfold.
  destruct (Nat.eqb _ 0 || is_none _); [discriminate |].
  destruct (Biodiversity.analyze_biodiversity _ _) as [e | d]; [discriminate |].
  cbv zeta. intros H. injection H as <- <-.
  exists d. split; [reflexivity |].
  destruct (Biodiversity.prev_depletion_level st) as [prev |];
    [| apply biodiversity_generate_no_trend].
  destruct (Qltb 0.05 _); [reflexivity | apply biodiversity_generate_no_trend].
Qed.

(** What a trend computed from [prev], [new] and a threshold says. *)
Lemma trend_reading (threshold new : Q) (stored : option Q) (tr : option Trend) :
  tr = match stored with
       | Some prev =>
           if Qltb threshold (Qabs (new - prev)) then
             Some {| direction := if Qltb (new - prev) 0 then "improving" else "worsening";
                     magnitude := Qabs (new - prev) |}
           else None
       | None => None
       end ->
  (is_Some tr <-> exists prev, stored = Some prev /\ threshold < Qabs (new - prev)) /\
  (stored = None -> tr = None) /\
  (forall t, tr = Some t ->
     exists prev, stored = Some prev /\
       magnitude t = Qabs (new - prev) /\
       (new < prev -> direction t = "improving") /\
       (prev < new -> direction t = "worsening")).
Proof.
  intros ->. destruct stored as [prev |].
  - destruct (Qltb threshold (Qabs (new - prev))) eqn:Hthr.
    + apply Qltb_lt in Hthr. split; [| split].
      * split; [intros _; exists prev; split; [reflexivity | exact Hthr] | intros _; eexists; reflexivity].
      * discriminate.
      * intros t Ht. injection Ht as <-. exists prev. cbn.
        split; [reflexivity |]. split; [reflexivity |]. split; intros Hlt.
        -- assert (E : Qltb (new - prev) 0 = true) by (apply Qltb_lt; lra).
           rewrite E. reflexivity.
        -- assert (E : Qltb (new - prev) 0 = false) by (apply Qltb_ge; lra).
           rewrite E. reflexivity.
    + apply Qltb_ge in Hthr. split; [| split].
      * split; [intros [t Ht]; discriminate Ht |].
        intros (prev' & E & Hlt). injection E as <-. lra.
      * discriminate.
      * discriminate.
  - split; [| split].
    + split; [intros [t Ht]; discriminate Ht | intros (prev & E & _); discriminate E].
    + reflexivity.
    + discriminate.
Qed.

(** C4: on either translator, take any sequence of earlier calls on a
    fresh instance and a call that returns a pattern.  The instance holds
    a previous severity exactly when one of the earlier calls succeeded;
    the pattern has a [trend] exactly when a previous severity is held and
    the absolute difference to the new severity exceeds the threshold
    (0.1 for water, 0.05 for biodiversity), so it has none on the very
    first call; a [trend] has the absolute difference as magnitude,
    direction [improving] when the severity decreased and [worsening]
    when it increased; and the new severity is the previous one of the
    next call, however many failing calls come in between. *)
Theorem trend_presence (fpow : Q -> Q -> Q) :
  (forall (history : list Call) (c : Call) p st',
      let st := snd (run (water_call fpow) history Water.init) in
      water_call fpow c st = (inr p, st') ->
      exists new,
        Water.prev_stress_level st' = Some new /\
        (is_Some (Water.prev_stress_level st) <->
         Exists (fun r => is_ok r = true) (fst (run (water_call fpow) history Water.init))) /\
        (is_Some (Water.trend p) <->
         exists prev, Water.prev_stress_level st = Some prev /\ 0.1 < Qabs (new - prev)) /\
        (history = [] -> Water.trend p = None) /\
        (forall t, Water.trend p = Some t ->
           exists prev, Water.prev_stress_level st = Some prev /\
             magnitude t = Qabs (new - prev) /\
             (new < prev -> direction t = "improving") /\
             (prev < new -> direction t = "worsening")) /\
        (forall later,
           Forall (fun r => is_ok r = false) (fst (run (water_call fpow) later st')) ->
           Water.prev_stress_level (snd (run (water_call fpow) later st')) = Some new)) /\
  (forall (history : list Call) (c : Call) p st',
      let st := snd (run biodiversity_call history Biodiversity.init) in
      biodiversity_call c st = (inr p, st') ->
      exists new,
        Biodiversity.prev_depletion_level st' = Some new /\
        (is_Some (Biodiversity.prev_depletion_level st) <->
         Exists (fun r => is_ok r = true) (fst (run biodiversity_call history Biodiversity.init))) /\
        (is_Some (Biodiversity.trend p) <->
         exists prev, Biodiversity.prev_depletion_level st = Some prev /\
                      0.05 < Qabs (new - prev)) /\
        (history = [] -> Biodiversity.trend p = None) /\
        (forall t, Biodiversity.trend p = Some t ->
           exists prev, Biodiversity.prev_depletion_level st = Some prev /\
             magnitude t = Qabs (new - prev) /\
             (new < prev -> direction t = "improving") /\
             (prev < new -> direction t = "worsening")) /\
        (forall later,
           Forall (fun r => is_ok r = false) (fst (run biodiversity_call later st')) ->
           Biodiversity.prev_depletion_level (snd (run biodiversity_call later st'))
             = Some new)).
Proof.
  split; intros history c p st' st Hcall.
  - destruct (water_trend_of fpow _ _ _ _ _ _ Hcall) as (new & Hnew & Htr).
    destruct (trend_reading 0.1 new _ _ Htr) as (Hpres & Hnone & Hdir).
    exists new. split; [exact Hnew |].
    split; [| split; [exact Hpres | split; [| split; [exact Hdir |]]]].
    + subst st.
      rewrite (run_level_is_Some (water_call fpow) Water.prev_stress_level).
      * split; [intros [[x Hx] | H]; [discriminate Hx | exact H] | intros H; right; exact H].
      * intros c0 s e s'. apply water_failure_keeps_state.
      * intros c0 s p0 s' H. destruct (water_trend_of fpow _ _ _ _ _ _ H) as (n & Hn & _).
        rewrite Hn. eexists; reflexivity.
    + intros ->. apply Hnone. reflexivity.
    + intros later Hlater. rewrite (run_all_failed (water_call fpow)); [exact Hnew | | exact Hlater].
      intros c0 s e s'. apply water_failure_keeps_state.
  - destruct (biodiversity_trend_of _ _ _ _ _ _ Hcall) as (new & Hnew & Htr).
    destruct (trend_reading 0.05 new _ _ Htr) as (Hpres & Hnone & Hdir).
    exists new. split; [exact Hnew |].
    split; [| split; [exact Hpres | split; [| split; [exact Hdir |]]]].
    + subst st.
      rewrite (run_level_is_Some biodiversity_call Biodiversity.prev_depletion_level).
      * split; [intros [[x Hx] | H]; [discriminate Hx | exact H] | intros H; right; exact H].
      * intros c0 s e s'. apply biodiversity_failure_keeps_state.
      * intros c0 s p0 s' H. destruct (biodiversity_trend_of _ _ _ _ _ _ H) as (n & Hn & _).
        rewrite Hn. eexists; reflexivity.
    + intros ->. apply Hnone. reflexivity.
    + intros later Hlater. rewrite (run_all_failed biodiversity_call); [exact Hnew | | exact Hlater].
      intros c0 s e s'. apply biodiversity_failure_keeps_state.
Qed.

Lemma trend_presence_witness :
  let w1 := {| sensor_data := list_to_map [("soil_moisture", PNum 27.5);
                                           ("ecosystem_type", PStr "temperate_forest")];
               timestamp := Some 10; clock := 11 |} in
  let w2 := {| sensor_data := list_to_map [("soil_moisture", PNum 18);
                                           ("ecosystem_type", PStr "temperate_forest")];
               timestamp := Some 20; clock := 21 |} in
  let b1 := {| sensor_data := list_to_map [("acoustic_diversity", PNum 0.65);
                                           ("ecosystem_type", PStr "grassland")];
               timestamp := None; clock := 11 |} in
  let b2 := {| sensor_data := list_to_map [("acoustic_diversity", PNum 0.25);
                                           ("ecosystem_type", PStr "grassland")];
               timestamp := None; clock := 21 |} in
  (exists p st',
      water_call pow_sample w2 (snd (run (water_call pow_sample) [w1] Water.init))
        = (inr p, st') /\
      exists new,
        Water.prev_stress_level st' = Some new /\
        (is_Some (Water.trend p) <->
         exists prev,
           Water.prev_stress_level (snd (run (water_call pow_sample) [w1] Water.init))
             = Some prev /\ 0.1 < Qabs (new - prev))) /\
  (exists p st',
      biodiversity_call b2 (snd (run biodiversity_call [b1] Biodiversity.init))
        = (inr p, st') /\
      exists new,
        Biodiversity.prev_depletion_level st' = Some new /\
        (is_Some (Biodiversity.trend p) <->
         exists prev,
           Biodiversity.prev_depletion_level
             (snd (run biodiversity_call [b1] Biodiversity.init)) = Some prev /\
           0.05 < Qabs (new - prev))).
Proof.
  intros w1 w2 b1 b2.
  pose proof (trend_presence pow_sample) as [Hw Hb].
  split.
  - eexists _, _. split; [vm_compute; reflexivity |].
    edestruct (Hw [w1] w2) as (new & Hnew & _ & Hpres & _); [vm_compute; reflexivity |].
    exists new. split; [exact Hnew | exact Hpres].
  - eexists _, _. split; [vm_compute; reflexivity |].
    edestruct (Hb [b1] b2) as (new & Hnew & _ & Hpres & _); [vm_compute; reflexivity |].
    exists new. split; [exact Hnew | exact Hpres].
Defined.

(** The same history, evaluated: the second water call improves by 0.22
    and the second biodiversity call worsens by 0.4. *)
Example trend_presence_run :
  let w1 := {| sensor_data := list_to_map [("soil_moisture", PNum 27.5);
                                           ("ecosystem_type", PStr "temperate_forest")];
               timestamp := Some 10; clock := 11 |} in
  let w2 := {| sensor_data := list_to_map [("soil_moisture", PNum 18);
                                           ("ecosystem_type", PStr "temperate_forest")];
               timestamp := Some 20; clock := 21 |} in
  let b1 := {| sensor_data := list_to_map [("acoustic_diversity", PNum 0.65);
                                           ("ecosystem_type", PStr "grassland")];
               timestamp := None; clock := 11 |} in
  let b2 := {| sensor_data := list_to_map [("acoustic_diversity", PNum 0.25);
                                           ("ecosystem_type", PStr "grassland")];
               timestamp := None; clock := 21 |} in
  (exists t0 t,
      map (fun r => match r with inr p => Water.trend p | inl _ => None end)
          (fst (run (water_call pow_sample) [w1; w2] Water.init)) = [t0; Some t] /\
      t0 = None /\ direction t = "improving" /\ magnitude t == 0.22) /\
  (exists t0 t,
      map (fun r => match r with inr p => Biodiversity.trend p | inl _ => None end)
          (fst (run biodiversity_call [b1; b2] Biodiversity.init)) = [t0; Some t] /\
      t0 = None /\ direction t = "worsening" /\ magnitude t == 0.4).
Proof.
  intros w1 w2 b1 b2. split.
  - eexists _, _. split; [vm_compute; reflexivity |].
    split; [reflexivity |]. split; reflexivity.
  - eexists _, _. split; [vm_compute; reflexivity |].
    split; [reflexivity |]. split; reflexivity.
Qed.

(** * Further properties of the water translator *)

Lemma water_levels_in_unit_interval_witness :
  (forall x y, 0 <= x -> 0 <= pow_sample x y) /\
  0 <= 1 <= 100 /\
  exists a,
    Water.analyze_water_stress pow_sample (PNum 1) (PStr "temperate_forest")
      (PDict {[ "stream_flow" := 0.2 ]}) = inr a /\
    0 <= Water.stress_level a <= 1 /\ 0 <= Water.saturation_level a <= 1.
Proof.
  assert (Hpow : forall x y, 0 <= x -> 0 <= pow_sample x y) by (intros x y H; exact H).
  split; [exact Hpow |]. split; [split; discriminate |].
  eexists. split; [vm_compute; reflexivity |].
  apply (water_levels_in_unit_interval pow_sample 1 (PStr "temperate_forest")
           (PDict {[ "stream_flow" := 0.2 ]}) _ Hpow);
    [split; discriminate | vm_compute; reflexivity].
Defined.

(** A successful analysis is the moisture score, with the indicators
    integrated into the stress level when a non-empty dict is given. *)
Lemma water_analysis_inv (fpow : Q -> Q -> Q) sm eco ind a r :
  Water.ecosystem_moisture_ranges !! eco = Some r ->
  Water.analyze_water_stress fpow (PNum sm) (PStr eco) ind = inr a ->
  Water.is_saturated a = Water.is_saturated (Water.moisture_score fpow r sm) /\
  Water.saturation_level a = Water.saturation_level (Water.moisture_score fpow r sm) /\
  (Water.stress_level a = Water.stress_level (Water.moisture_score fpow r sm) \/
   exists d, ind = PDict d /\
     Water.stress_level a =
       Water.integrate_indicators (Water.stress_level (Water.moisture_score fpow r sm)) d).
Proof.
  intros Hr. unfold Water.analyze_water_stress. cbn [table_lookup as_num]. rewrite Hr.
  destruct (truthy ind).
  - destruct ind as [| x | s | d]; intros H; try discriminate H.
    injection H as <-. cbn. split; [reflexivity |]. split; [reflexivity |].
    right. exists d. split; reflexivity.
  - intros H. injection H as <-. split; [reflexivity |]. split; [reflexivity |].
    left. reflexivity.
Qed.

(** Saturation is decided by the soil moisture alone: the reading is
    flagged saturated exactly when the moisture exceeds the ecosystem's
    saturation threshold, whatever the indicators; a saturated reading has
    a positive saturation level and an unsaturated one has level 0. *)
Theorem saturation_exclusive (fpow : Q -> Q -> Q) sm eco ind a r :
  Water.ecosystem_moisture_ranges !! eco = Some r ->
  Water.analyze_water_stress fpow (PNum sm) (PStr eco) ind = inr a ->
  (Water.is_saturated a = true <-> Water.saturation_threshold r < sm) /\
  (Water.is_saturated a = true -> 0 < Water.saturation_level a) /\
  (Water.is_saturated a = false -> Water.saturation_level a == 0).
Proof.
  intros Hr Ha.
  destruct (moisture_ranges_ordered _ _ Hr) as (_ & _ & _ & _ & H100).
  destruct (water_analysis_inv fpow sm eco ind a r Hr Ha) as (Hsat & Hlvl & _).
  rewrite Hsat, Hlvl.
  destruct (Qlt_le_dec (Water.saturation_threshold r) sm) as [Hgt | Hle].
  - rewrite (moisture_score_saturated fpow r sm Hgt). cbn.
    split; [split; [intros _; exact Hgt | reflexivity] |].
    split; [| discriminate]. intros _.
    assert (Hpos : 0 < (sm - Water.saturation_threshold r)
                       / (100 - Water.saturation_threshold r))
      by (apply Qdiv_pos; lra).
    destruct (Q.min_spec 1.0 ((sm - Water.saturation_threshold r)
                              / (100 - Water.saturation_threshold r)))
      as [[_ ->] | [_ ->]]; [reflexivity | exact Hpos].
  - destruct (moisture_score_not_saturated fpow r sm Hle) as [-> ->].
    split; [split; [discriminate | intros H; lra] |].
    split; [discriminate | reflexivity].
Qed.

Lemma saturation_exclusive_witness :
  Water.ecosystem_moisture_ranges !! "grassland"
    = Some {| Water.optimal := (20, 35); Water.stress_threshold := 15;
              Water.saturation_threshold := 45 |} /\
  exists a,
    Water.analyze_water_stress pow_sample (PNum 50) (PStr "grassland")
      (PDict {[ "stream_flow" := 0.2 ]}) = inr a /\
    (Water.is_saturated a = true <-> 45 < 50) /\
    (Water.is_saturated a = true -> 0 < Water.saturation_level a) /\
    (Water.is_saturated a = false -> Water.saturation_level a == 0).
Proof.
  split; [vm_compute; reflexivity |].
  eexists. split; [vm_compute; reflexivity |].
  apply (saturation_exclusive pow_sample 50 "grassland" (PDict {[ "stream_flow" := 0.2 ]}) _
           {| Water.optimal := (20, 35); Water.stress_threshold := 15;
              Water.saturation_threshold := 45 |});
    vm_compute; reflexivity.
Defined.

(** The indicators can only raise the stress level: from a level in
    [[0,1]] the adjusted level is at least the level it started from and at
    most 1. *)
Theorem indicators_only_raise (s : Q) (d : gmap string Q) :
  0 <= s <= 1 -> s <= Water.integrate_indicators s d <= 1.
Proof.
  intros Hs. unfold Water.integrate_indicators.
  assert (Hmin : forall x, 0 <= x -> forall y, x <= y -> x <= 1 -> x <= Qmin 1.0 y <= 1).
  { intros x Hx y Hxy Hx1.
    destruct (Q.min_spec 1.0 y) as [[H ->] | [H ->]]; lra. }
  set (s1 := match d !! "leaf_water_potential" with Some _ => _ | None => _ end).
  assert (H1 : s <= s1 <= 1).
  { subst s1. destruct (d !! "leaf_water_potential") as [l |]; [| lra].
    destruct (Qltb l (-2.0)); [apply Hmin; lra |].
    destruct (Qltb l (-1.5)); [apply Hmin; lra | lra]. }
  clearbody s1.
  set (s2 := match d !! "stream_flow" with Some _ => _ | None => _ end).
  assert (H2 : s1 <= s2 <= 1).
  { subst s2. destruct (d !! "stream_flow") as [f |]; [| lra].
    destruct (Qltb f 0.5); [apply Hmin; lra | lra]. }
  clearbody s2.
  set (s3 := match d !! "water_table_depth" with Some _ => _ | None => _ end).
  assert (H3 : s2 <= s3 <= 1).
  { subst s3. destruct (d !! "water_table_depth") as [w |]; [| lra].
    destruct (Qltb _ w); [apply Hmin; lra | lra]. }
  clearbody s3.
  assert (H4 : s3 <= match d !! "precipitation_deficit" with
                     | Some p => if Qltb 30 p then Qmin 1.0 (s3 + p / 100 * 0.2) else s3
                     | None => s3
                     end <= 1).
  { destruct (d !! "precipitation_deficit") as [p |]; [| lra].
    destruct (Qltb 30 p) eqn:Hp; [| lra].
    apply Qltb_lt in Hp.
    assert (Hq : 0 <= p / 100) by (apply Qdiv_nonneg; lra).
    set (q := p / 100) in *. apply Hmin; lra. }
  lra.
Qed.

Lemma indicators_only_raise_witness :
  0 <= 0.28 <= 1 /\
  0.28 <= Water.integrate_indicators 0.28
            (list_to_map [("leaf_water_potential", -1.8); ("stream_flow", 0.3)]) <= 1.
Proof.
  split; [split; discriminate |].
  apply (indicators_only_raise 0.28
           (list_to_map [("leaf_water_potential", -1.8); ("stream_flow", 0.3)])).
  split; discriminate.
Defined.

Lemma moisture_score_optimal (fpow : Q -> Q -> Q) r sm :
  fst (Water.optimal r) <= sm <= Water.saturation_threshold r ->
  Water.moisture_score fpow r sm =
    {| Water.stress_level := 0.0; Water.is_saturated := false;
       Water.saturation_level := 0.0 |}.
Proof.
  unfold Water.moisture_score. destruct (Water.optimal r) as [lo hi]. cbn [fst].
  intros [Hlo Hhi]. apply Qltb_ge in Hlo, Hhi. rewrite Hlo, Hhi. reflexivity.
Qed.

(** The pattern type [generate_feedback_pattern] chooses, with the
    condition each type stands for. *)
Lemma water_generate_cases (fpow : Q -> Q -> Q) s sat sl prev :
  let g := Water.generate_feedback_pattern fpow s sat sl prev in
  (Water.type g = "recovery" /\
   exists q, prev = Some q /\ s < q /\ 0.3 < q /\ s < 0.3) \/
  (Water.type g = "affirmation" /\ s == 0 /\ sat = false) \/
  (Water.type g = "pressure" /\ sat = true) \/
  (Water.type g = "tension" /\ sat = false /\ ~ s == 0).
Proof.
  cbv zeta. unfold Water.generate_feedback_pattern.
  assert (Hrest :
    let g := if Qeq_bool s 0 && negb sat
             then {| Water.type := "affirmation";
                     Water.intensity := Water.base_intensity * 0.5;
                     Water.rhythm := "steady"; Water.pulse_count := 1;
                     Water.duration := Water.pulse_duration;
                     Water.frequency := "low"; Water.location := "whole_body";
                     Water.description :=
                       "A gentle, affirming warmth indicating healthy water balance";
                     Water.emotion := "contentment"; Water.trend := None |}
             else if sat
             then {| Water.type := "pressure";
                     Water.intensity :=
                       Water.base_intensity
                       + (Water.max_intensity - Water.base_intensity) * fpow sl 1.5;
                     Water.rhythm := "wave"; Water.pulse_count := 2;
                     Water.duration := Water.pulse_duration * 1.5;
                     Water.frequency := "low"; Water.location := "chest_and_limbs";
                     Water.description :=
                       "A slow, heavy pressure mimicking the feeling of waterlogged soil";
                     Water.emotion := "heaviness"; Water.trend := None |}
             else {| Water.type := "tension";
                     Water.intensity :=
                       Water.base_intensity
                       + (Water.max_intensity - Water.base_intensity) * fpow s 1.5;
                     Water.rhythm := if Qltb 0.7 s then "staccato" else "intermittent";
                     Water.pulse_count := Z.max 2 (Z.min 5 (py_int (s * 6)));
                     Water.duration := Water.pulse_duration * (1.0 - s * 0.5);
                     Water.frequency := "medium_high";
                     Water.location := "throat_and_chest";
                     Water.description :=
                       "A constricting sensation mimicking thirst, intensifying with drought severity";
                     Water.emotion := if Qltb s 0.5 then "concern" else "urgency";
                     Water.trend := None |} in
    (Water.type g = "affirmation" /\ s == 0 /\ sat = false) \/
    (Water.type g = "pressure" /\ sat = true) \/
    (Water.type g = "tension" /\ sat = false /\ ~ s == 0)).
  { cbv zeta. destruct (Qeq_bool s 0) eqn:H0; destruct sat; cbn [andb negb].
    - right; left. split; reflexivity.
    - left. apply Qeq_bool_iff in H0. repeat split. exact H0.
    - right; left. split; reflexivity.
    - right; right. apply Qeq_bool_neq in H0. repeat split. exact H0. }
  cbv zeta in Hrest.
  destruct prev as [q |]; [| right; exact Hrest].
  destruct (Qltb s q) eqn:H1; cbn [andb]; [| right; exact Hrest].
  destruct (Qltb 0.3 q) eqn:H2; cbn [andb]; [| right; exact Hrest].
  destruct (Qltb s 0.3) eqn:H3; [| right; exact Hrest].
  left. split; [reflexivity |]. exists q.
  apply Qltb_lt in H1, H2, H3. repeat split; assumption.
Qed.

(** What each pattern type of the water translator stands for: a returned
    pattern is a [recovery] only after a stored stress above 0.3 that the
    new stress undercuts while being below 0.3, an [affirmation] only for
    an unsaturated reading with zero stress, a [pressure] only for a
    saturated reading, and a [tension] only for an unsaturated reading
    with non-zero stress; there is no fifth type. *)
Theorem water_pattern_types (fpow : Q -> Q -> Q) now sd ts (st st' : Water.Readings) a p :
  Water.analyze_water_stress fpow (py_get sd "soil_moisture")
    (py_get sd "ecosystem_type") (py_get sd "additional_indicators") = inr a ->
  Water.translate fpow now sd ts st = (inr p, st') ->
  (Water.type p = "recovery" /\
   exists q, Water.prev_stress_level st = Some q /\
             Water.stress_level a < q /\ 0.3 < q /\ Water.stress_level a < 0.3) \/
  (Water.type p = "affirmation" /\ Water.stress_level a == 0 /\
   Water.is_saturated a = false) \/
  (Water.type p = "pressure" /\ Water.is_saturated a = true) \/
  (Water.type p = "tension" /\ Water.is_saturated a = false /\
   ~ Water.stress_level a == 0).
Proof.
  intros Ha Ht.
  destruct (water_translate_ok fpow now sd ts st a Ha) as (p' & st'' & Ht' & _ & Hty & _).
  rewrite Ht in Ht'. injection Ht' as <- <-. cbv zeta in Hty. rewrite Hty.
  apply water_generate_cases.
Qed.

Lemma water_pattern_types_witness :
  let sd : gmap string pyval :=
    list_to_map [("soil_moisture", PNum 60); ("ecosystem_type", PStr "temperate_forest")] in
  let st := {| Water.prev_soil_moisture := PNum 27.5;
               Water.prev_stress_level := Some 0.5;
               Water.prev_timestamp := Some 3 |} in
  exists a p st',
    Water.analyze_water_stress pow_sample (py_get sd "soil_moisture")
      (py_get sd "ecosystem_type") (py_get sd "additional_indicators") = inr a /\
    Water.translate pow_sample 4 sd None st = (inr p, st') /\
    Water.is_saturated a = true /\
    Water.type p = "recovery" /\
    ((Water.type p = "recovery" /\
      exists q, Water.prev_stress_level st = Some q /\
                Water.stress_level a < q /\ 0.3 < q /\ Water.stress_level a < 0.3) \/
     (Water.type p = "affirmation" /\ Water.stress_level a == 0 /\
      Water.is_saturated a = false) \/
     (Water.type p = "pressure" /\ Water.is_saturated a = true) \/
     (Water.type p = "tension" /\ Water.is_saturated a = false /\
      ~ Water.stress_level a == 0)).
Proof.
  intros sd st. eexists _, _, _.
  split; [vm_compute; reflexivity |].
  split; [vm_compute; reflexivity |].
  split; [reflexivity |]. split; [reflexivity |].
  eapply (water_pattern_types pow_sample 4 sd None st); vm_compute; reflexivity.
Defined.

(** A reading in the healthy band (from [optimal_low] up to the saturation
    threshold) with no indicators has stress level 0; the pattern is an
    [affirmation], unless the translator remembers a stress level above
    0.3, in which case it is a [recovery]. *)
Theorem healthy_band_pattern (fpow : Q -> Q -> Q) now sd ts (st : Water.Readings) sm eco r :
  py_get sd "soil_moisture" = PNum sm ->
  py_get sd "ecosystem_type" = PStr eco ->
  truthy (py_get sd "additional_indicators") = false ->
  Water.ecosystem_moisture_ranges !! eco = Some r ->
  fst (Water.optimal r) <= sm <= Water.saturation_threshold r ->
  exists p st',
    Water.translate fpow now sd ts st = (inr p, st') /\
    Water.prev_stress_level st' = Some 0.0 /\
    Water.type p =
      match Water.prev_stress_level st with
      | Some q => if Qltb 0.3 q then "recovery" else "affirmation"
      | None => "affirmation"
      end.
Proof.
  intros Hsm Heco Hind Hr Hband.
  assert (Ha : Water.analyze_water_stress fpow (py_get sd "soil_moisture")
                 (py_get sd "ecosystem_type") (py_get sd "additional_indicators")
               = inr {| Water.stress_level := 0.0; Water.is_saturated := false;
                        Water.saturation_level := 0.0 |}).
  { rewrite Hsm, Heco. unfold Water.analyze_water_stress.
    cbn [table_lookup as_num]. rewrite Hr, Hind.
    rewrite (moisture_score_optimal fpow r sm Hband). reflexivity. }
  destruct (water_translate_ok fpow now sd ts st _ Ha) as (p & st' & Ht & Hst & Hty & _).
  exists p, st'. split; [exact Ht |]. split; [exact Hst |].
  cbv zeta in Hty. rewrite Hty. cbn [Water.stress_level Water.is_saturated].
  unfold Water.generate_feedback_pattern.
  destruct (Water.prev_stress_level st) as [q |]; [| reflexivity].
  destruct (Qltb 0.3 q) eqn:H3.
  - assert (H0 : Qltb 0.0 q = true) by (apply Qltb_lt; apply Qltb_lt in H3; lra).
    rewrite H0. reflexivity.
  - rewrite andb_false_r. reflexivity.
Qed.

Lemma healthy_band_pattern_witness :
  let sd : gmap string pyval :=
    list_to_map [("soil_moisture", PNum 70); ("ecosystem_type", PStr "wetland")] in
  let st := {| Water.prev_soil_moisture := PNum 55;
               Water.prev_stress_level := Some 0.5;
               Water.prev_timestamp := Some 3 |} in
  exists p st',
    Water.translate pow_sample 4 sd None st = (inr p, st') /\
    Water.prev_stress_level st' = Some 0.0 /\
    Water.type p = "recovery".
Proof.
  intros sd st.
  apply (healthy_band_pattern pow_sample 4 sd None st 70 "wetland"
           {| Water.optimal := (60, 85); Water.stress_threshold := 50;
              Water.saturation_threshold := 95 |});
    try (vm_compute; reflexivity).
  split; discriminate.
Defined.

Lemma Qdiv_lt_compat_r a b c : 0 < c -> a < b -> a / c < b / c.
Proof.
  intros Hc Hab. unfold Qdiv. apply Qmult_lt_compat_r; [| exact Hab].
  apply Qinv_lt_0_compat, Hc.
Qed.

(** The drought score jumps at the stress threshold.  With no indicators,
    a soil moisture equal to the threshold scores 0, while between the
    threshold and [optimal_low] the score is
    [(optimal_low - soil_moisture) / (optimal_low - stress_threshold)],
    positive, and the larger the drier: it approaches 1 just above the
    threshold. *)
Theorem stress_jump_at_threshold (fpow : Q -> Q -> Q) eco r :
  Water.ecosystem_moisture_ranges !! eco = Some r ->
  (exists a,
      Water.analyze_water_stress fpow (PNum (Water.stress_threshold r)) (PStr eco) PNone
        = inr a /\
      Water.stress_level a == 0) /\
  (forall sm,
      Water.stress_threshold r < sm -> sm < fst (Water.optimal r) ->
      exists a,
        Water.analyze_water_stress fpow (PNum sm) (PStr eco) PNone = inr a /\
        Water.stress_level a ==
          (fst (Water.optimal r) - sm) / (fst (Water.optimal r) - Water.stress_threshold r) /\
        0 < Water.stress_level a) /\
  (forall sm sm',
      Water.stress_threshold r < sm -> sm < sm' -> sm' < fst (Water.optimal r) ->
      (fst (Water.optimal r) - sm') / (fst (Water.optimal r) - Water.stress_threshold r)
      < (fst (Water.optimal r) - sm) / (fst (Water.optimal r) - Water.stress_threshold r)).
Proof.
  intros Hr.
  destruct (moisture_ranges_ordered _ _ Hr) as (H0 & H1 & H2 & H3 & H4).
  unfold Water.analyze_water_stress. cbn [table_lookup as_num truthy]. rewrite Hr.
  unfold Water.moisture_score. destruct (Water.optimal r) as [lo hi]. cbn [fst snd] in *.
  split; [| split].
  - assert (E1 : Qltb (Water.saturation_threshold r) (Water.stress_threshold r) = false)
      by (apply Qltb_ge; lra).
    assert (E2 : Qltb (Water.stress_threshold r) lo = true) by (apply Qltb_lt; lra).
    assert (E3 : Qle_bool (Water.stress_threshold r) (Water.stress_threshold r) = true)
      by (apply Qle_bool_iff; lra).
    rewrite E1, E2, E3.
    set (x := (Water.stress_threshold r - Water.stress_threshold r) / Water.stress_threshold r).
    assert (Hx : x == 0).
    { subst x. unfold Qdiv.
      assert (Hz : Water.stress_threshold r - Water.stress_threshold r == 0) by ring.
      rewrite Hz. ring. }
    assert (Hm : Qmin 1.0 x == 0).
    { destruct (Q.min_spec 1.0 x) as [[H _] | [_ ->]]; [lra | exact Hx]. }
    assert (E4 : Qltb 0.7 (Qmin 1.0 x) = false) by (apply Qltb_ge; lra).
    rewrite E4. eexists. split; [reflexivity | exact Hm].
  - intros sm Hlo Hhi.
    assert (E1 : Qltb (Water.saturation_threshold r) sm = false) by (apply Qltb_ge; lra).
    assert (E2 : Qltb sm lo = true) by (apply Qltb_lt; lra).
    assert (E3 : Qle_bool sm (Water.stress_threshold r) = false).
    { apply not_true_is_false. intros E. apply Qle_bool_iff in E. lra. }
    rewrite E1, E2, E3. eexists. split; [reflexivity |]. cbn.
    split; [reflexivity | apply Qdiv_pos; lra].
  - intros sm sm' Hlo Hlt Hhi. apply Qdiv_lt_compat_r; lra.
Qed.

Lemma stress_jump_at_threshold_witness :
  Water.ecosystem_moisture_ranges !! "temperate_forest"
    = Some {| Water.optimal := (30, 45); Water.stress_threshold := 25;
              Water.saturation_threshold := 55 |} /\
  (exists a,
      Water.analyze_water_stress pow_sample (PNum 25) (PStr "temperate_forest") PNone
        = inr a /\
      Water.stress_level a == 0) /\
  (exists a,
      Water.analyze_water_stress pow_sample (PNum 25.1) (PStr "temperate_forest") PNone
        = inr a /\
      Water.stress_level a == 0.98).
Proof.
  split; [vm_compute; reflexivity |].
  destruct (stress_jump_at_threshold pow_sample "temperate_forest"
              {| Water.optimal := (30, 45); Water.stress_threshold := 25;
                 Water.saturation_threshold := 55 |}) as (Hat & Habove & _);
    [vm_compute; reflexivity |].
  split; [exact Hat |].
  destruct (Habove 25.1) as (a & Ha & Hs & _); [reflexivity | reflexivity |].
  exists a. split; [exact Ha |]. rewrite Hs. reflexivity.
Defined.

(** ** The tension pattern *)

(** The fields of a tension pattern. *)
Lemma water_tension_fields (fpow : Q -> Q -> Q) s sat sl prev :
  let g := Water.generate_feedback_pattern fpow s sat sl prev in
  Water.type g = "tension" ->
  Water.pulse_count g = Z.max 2 (Z.min 5 (py_int (s * 6))) /\
  Water.rhythm g = (if Qltb 0.7 s then "staccato" else "intermittent") /\
  Water.emotion g = (if Qltb s 0.5 then "concern" else "urgency") /\
  Water.duration g = Water.pulse_duration * (1.0 - s * 0.5) /\
  Water.intensity g =
    Water.base_intensity + (Water.max_intensity - Water.base_intensity) * fpow s 1.5.
Proof.
  cbv zeta. unfold Water.generate_feedback_pattern.
  destruct prev as [q |];
    [destruct (Qltb s q && Qltb 0.3 q && Qltb s 0.3); [cbn; discriminate |] |];
    (destruct (Qeq_bool s 0 && negb sat); [cbn; discriminate |]);
    (destruct sat; [cbn; discriminate |]);
    intros _; repeat split.
Qed.



(** A tension pattern for a stress level in [[0,1]] lasts between 0.4 and
    0.8 seconds per pulse; a [staccato] rhythm always comes with the
    emotion [urgency] and at least 4 pulses, and the emotion [concern]
    always with the [intermittent] rhythm and exactly 2 pulses. *)
Theorem tension_consistency (fpow : Q -> Q -> Q) s sat sl prev :
  0 <= s <= 1 ->
  Water.type (Water.generate_feedback_pattern fpow s sat sl prev) = "tension" ->
  let g := Water.generate_feedback_pattern fpow s sat sl prev in
  0.4 <= Water.duration g <= 0.8 /\
  (Water.rhythm g = "staccato" ->
   Water.emotion g = "urgency" /\ (4 <= Water.pulse_count g)%Z) /\
  (Water.emotion g = "concern" ->
   Water.rhythm g = "intermittent" /\ Water.pulse_count g = 2%Z).
Proof.
  intros Hs Hty. cbv zeta.
  destruct (water_tension_fields fpow s sat sl prev Hty) as (Hpc & Hrh & Hem & Hdu & _).
  rewrite Hpc, Hrh, Hem, Hdu.
  change (Z.max 2 (Z.min 5 (py_int (s * 6)))) with (clampZ (py_int (s * 6)) 2 5).
  rewrite tension_pulse_count_bands by lra.
  split; [unfold Water.pulse_duration; lra |].
  destruct (Qltb 0.7 s) eqn:H7; destruct (Qltb s 0.5) eqn:H5.
  - apply Qltb_lt in H7, H5. lra.
  - split; [| discriminate]. intros _. split; [reflexivity |].
    apply Qltb_lt in H7.
    assert (E : Qltb s (2 # 3) = false) by (apply Qltb_ge; lra).
    rewrite E. destruct (Qltb s (5 # 6)); lia.
  - split; [discriminate |]. intros _. split; reflexivity.
  - split; discriminate.
Qed.

Lemma tension_consistency_witness :
  0 <= 0.8 <= 1 /\
  let g := Water.generate_feedback_pattern pow_sample 0.8 false 0.0 None in
  Water.type g = "tension" /\
  0.4 <= Water.duration g <= 0.8 /\
  (Water.rhythm g = "staccato" ->
   Water.emotion g = "urgency" /\ (4 <= Water.pulse_count g)%Z) /\
  (Water.emotion g = "concern" ->
   Water.rhythm g = "intermittent" /\ Water.pulse_count g = 2%Z).
Proof.
  split; [split; discriminate |]. cbv zeta. split; [reflexivity |].
  apply (tension_consistency pow_sample 0.8 false 0.0 None);
    [split; discriminate | reflexivity].
Defined.

(** Every pattern of the water translator has an intensity between half
    the base intensity and the maximum intensity, for a stress level and a
    saturation level in [[0,1]], provided [x ** 1.5] stays in [[0,1]] for
    [x] in [[0,1]]. *)
Theorem water_intensity_bounds (fpow : Q -> Q -> Q) s sat sl prev :
  (forall x, 0 <= x <= 1 -> 0 <= fpow x 1.5 <= 1) ->
  0 <= s <= 1 -> 0 <= sl <= 1 ->
  Water.base_intensity * 0.5
    <= Water.intensity (Water.generate_feedback_pattern fpow s sat sl prev)
    <= Water.max_intensity.
Proof.
  intros Hpow Hs Hsl.
  pose proof (Hpow s Hs) as Hps. pose proof (Hpow sl Hsl) as Hpl.
  unfold Water.generate_feedback_pattern, Water.base_intensity, Water.max_intensity.
  assert (Hrest :
    forall p : Water.Pattern,
      p = (if Qeq_bool s 0 && negb sat
           then {| Water.type := "affirmation"; Water.intensity := 2.0 * 0.5;
                   Water.rhythm := "steady"; Water.pulse_count := 1;
                   Water.duration := Water.pulse_duration;
                   Water.frequency := "low"; Water.location := "whole_body";
                   Water.description :=
                     "A gentle, affirming warmth indicating healthy water balance";
                   Water.emotion := "contentment"; Water.trend := None |}
           else if sat
           then {| Water.type := "pressure";
                   Water.intensity := 2.0 + (10.0 - 2.0) * fpow sl 1.5;
                   Water.rhythm := "wave"; Water.pulse_count := 2;
                   Water.duration := Water.pulse_duration * 1.5;
                   Water.frequency := "low"; Water.location := "chest_and_limbs";
                   Water.description :=
                     "A slow, heavy pressure mimicking the feeling of waterlogged soil";
                   Water.emotion := "heaviness"; Water.trend := None |}
           else {| Water.type := "tension";
                   Water.intensity := 2.0 + (10.0 - 2.0) * fpow s 1.5;
                   Water.rhythm := if Qltb 0.7 s then "staccato" else "intermittent";
                   Water.pulse_count := Z.max 2 (Z.min 5 (py_int (s * 6)));
                   Water.duration := Water.pulse_duration * (1.0 - s * 0.5);
                   Water.frequency := "medium_high";
                   Water.location := "throat_and_chest";
                   Water.description :=
                     "A constricting sensation mimicking thirst, intensifying with drought severity";
                   Water.emotion := if Qltb s 0.5 then "concern" else "urgency";
                   Water.trend := None |}) ->
      2.0 * 0.5 <= Water.intensity p <= 10.0).
  { intros p ->. destruct (Qeq_bool s 0 && negb sat); [cbn; lra |].
    destruct sat; cbn; lra. }
  destruct prev as [q |]; [| apply Hrest; reflexivity].
  destruct (Qltb s q && Qltb 0.3 q && Qltb s 0.3) eqn:Hc; [| apply Hrest; reflexivity].
  apply andb_prop in Hc as [Hc H3]. apply andb_prop in Hc as [H1 H2].
  apply Qltb_lt in H1, H2. cbn [Water.intensity].
  assert (Hratio : 0 <= Qmin 1.0 ((q - s) / q) <= 1)
    by (apply Qmin_1_bounds, Qdiv_nonneg; lra).
  set (ratio := Qmin 1.0 ((q - s) / q)) in *. lra.
Qed.

Lemma water_intensity_bounds_witness :
  (forall x, 0 <= x <= 1 -> 0 <= pow_sample x 1.5 <= 1) /\
  0 <= 0.6 <= 1 /\ 0 <= 0 <= 1 /\
  Water.base_intensity * 0.5
    <= Water.intensity (Water.generate_feedback_pattern pow_sample 0.6 false 0 (Some 0.2))
    <= Water.max_intensity.
Proof.
  assert (Hpow : forall x, 0 <= x <= 1 -> 0 <= pow_sample x 1.5 <= 1)
    by (intros x H; exact H).
  split; [exact Hpow |]. split; [split; discriminate |]. split; [split; discriminate |].
  apply (water_intensity_bounds pow_sample 0.6 false 0 (Some 0.2) Hpow); split; discriminate.
Defined.

(** ** Outcomes of [translate] *)

Lemma Qabs_self_small (x threshold : Q) : 0 < threshold -> Qltb threshold (Qabs (x - x)) = false.
Proof.
  intros H. apply Qltb_ge. apply Qabs_Qle_condition. split; lra.
Qed.

Lemma Qltb_irrefl x : Qltb x x = false.
Proof. apply Qltb_ge. lra. Qed.

(** Repeating a reading is steady.  After a successful call, the same
    payload again succeeds with the same severity, carries no trend and is
    never a recovery pattern ([recovery], [expanding_harmony]); every
    further repetition returns that same pattern. *)
Theorem repeated_reading_is_steady (fpow : Q -> Q -> Q) :
  (forall now1 now2 sd ts1 ts2 (st st' : Water.Readings) p,
      Water.translate fpow now1 sd ts1 st = (inr p, st') ->
      exists q st'',
        Water.translate fpow now2 sd ts2 st' = (inr q, st'') /\
        Water.prev_stress_level st'' = Water.prev_stress_level st' /\
        Water.trend q = None /\
        Water.type q <> "recovery" /\
        forall now3 ts3, fst (Water.translate fpow now3 sd ts3 st'') = inr q) /\
  (forall now1 now2 sd ts1 ts2 (st st' : Biodiversity.Readings) p,
      Biodiversity.translate now1 sd ts1 st = (inr p, st') ->
      exists q st'',
        Biodiversity.translate now2 sd ts2 st' = (inr q, st'') /\
        Biodiversity.prev_depletion_level st'' = Biodiversity.prev_depletion_level st' /\
        Biodiversity.trend q = None /\
        Biodiversity.type q <> "expanding_harmony" /\
        forall now3 ts3, fst (Biodiversity.translate now3 sd ts3 st'') = inr q).
Proof.
  split; intros now1 now2 sd ts1 ts2 st st' p.
  - rewrite !water_translate_unfold.
    destruct (is_none _ || is_none _) eqn:Hv; [intros H; discriminate H |].
    destruct (Water.analyze_water_stress fpow _ _ _) as [e | a] eqn:Ha;
      [intros H; discriminate H |].
    cbv zeta. intros H. injection H as _ <-. cbn [Water.prev_stress_level].
    rewrite Qabs_self_small by reflexivity.
    eexists _, _. split; [reflexivity |]. split; [reflexivity |].
    split; [apply water_generate_no_trend |]. split.
    + unfold Water.generate_feedback_pattern. rewrite Qltb_irrefl. cbn [andb].
      destruct (Qeq_bool _ 0 && negb _); [discriminate |].
      destruct (Water.is_saturated a); discriminate.
    + intros now3 ts3. rewrite water_translate_unfold, Hv, Ha.
      cbv zeta. cbn [Water.prev_stress_level fst].
      rewrite Qabs_self_small by reflexivity. reflexivity.
  - rewrite !biodiversity_translate_unfold.
    destruct (Nat.eqb _ 0 || is_none _) eqn:Hv; [intros H; discriminate H |].
    destruct (Biodiversity.analyze_biodiversity _ _) as [e | d] eqn:Ha;
      [intros H; discriminate H |].
    cbv zeta. intros H. injection H as _ <-. cbn [Biodiversity.prev_depletion_level].
    rewrite Qabs_self_small by reflexivity.
    eexists _, _. split; [reflexivity |]. split; [reflexivity |].
    split; [apply biodiversity_generate_no_trend |]. split.
    + unfold Biodiversity.generate_feedback_pattern. rewrite Qltb_irrefl. cbn [andb].
      destruct (Qltb d 0.2); [discriminate |].
      destruct (Qltb d 0.5); discriminate.
    + intros now3 ts3. rewrite biodiversity_translate_unfold, Hv, Ha.
      cbv zeta. cbn [Biodiversity.prev_depletion_level fst].
      rewrite Qabs_self_small by reflexivity. reflexivity.
Qed.

Lemma repeated_reading_is_steady_witness :
  let sdw : gmap string pyval :=
    list_to_map [("soil_moisture", PNum 18); ("ecosystem_type", PStr "temperate_forest")] in
  let stw := {| Water.prev_soil_moisture := PNum 27.5;
                Water.prev_stress_level := Some 0.5;
                Water.prev_timestamp := Some 3 |} in
  let sdb : gmap string pyval :=
    list_to_map [("bird_species", PNum 9); ("ecosystem_type", PStr "grassland")] in
  (exists p st', Water.translate pow_sample 4 sdw None stw = (inr p, st') /\
     Water.type p = "recovery" /\
     exists q st'', Water.translate pow_sample 5 sdw None st' = (inr q, st'') /\
       Water.trend q = None /\ Water.type q <> "recovery") /\
  (exists p st', Biodiversity.translate 4 sdb None Biodiversity.init = (inr p, st') /\
     exists q st'', Biodiversity.translate 5 sdb None st' = (inr q, st'') /\
       Biodiversity.trend q = None /\ Biodiversity.type q <> "expanding_harmony").
Proof.
  intros sdw stw sdb.
  pose proof (repeated_reading_is_steady pow_sample) as [Hw Hb].
  split.
  - eexists _, _. split; [vm_compute; reflexivity |]. split; [reflexivity |].
    edestruct (Hw 4 5 sdw None None stw) as (q & st'' & Hq & _ & Htr & Hty & _);
      [vm_compute; reflexivity |].
    exists q, st''. split; [exact Hq |]. split; [exact Htr | exact Hty].
  - eexists _, _. split; [vm_compute; reflexivity |].
    edestruct (Hb 4 5 sdb None None Biodiversity.init) as (q & st'' & Hq & _ & Htr & Hty & _);
      [vm_compute; reflexivity |].
    exists q, st''. split; [exact Hq |]. split; [exact Htr | exact Hty].
Defined.




(** ** [get_historical_trends] *)

Lemma water_run_level (fpow : Q -> Q -> Q) (history : list Call) :
  is_Some (Water.prev_stress_level (snd (run (water_call fpow) history Water.init))) <->
  Exists (fun r => is_ok r = true) (fst (run (water_call fpow) history Water.init)).
Proof.
  rewrite (run_level_is_Some (water_call fpow) Water.prev_stress_level).
  - split; [intros [[x Hx] | H]; [discriminate Hx | exact H] | intros H; right; exact H].
  - intros c s e s'. apply water_failure_keeps_state.
  - intros c s p s' H. destruct (water_trend_of fpow _ _ _ _ _ _ H) as (n & Hn & _).
    rewrite Hn. eexists; reflexivity.
Qed.

(** The report of [get_historical_trends] after any sequence of calls on a
    fresh water translator: the trend is always ["unknown"] with
    confidence 0; a [current_stress] is reported exactly when one of the
    calls succeeded; and right after a successful call the report carries
    that call's stress level and stored timestamp. *)
Theorem historical_trends_report (fpow : Q -> Q -> Q) (history : list Call) (timeframe : pyval) :
  let st := snd (run (water_call fpow) history Water.init) in
  let report := Water.get_historical_trends st timeframe in
  report !! "trend" = Some (PStr "unknown") /\
  report !! "confidence" = Some (PNum 0) /\
  (is_Some (report !! "current_stress") <->
   Exists (fun r => is_ok r = true) (fst (run (water_call fpow) history Water.init))) /\
  (forall c p st',
      water_call fpow c st = (inr p, st') ->
      exists new,
        Water.prev_stress_level st' = Some new /\
        Water.get_historical_trends st' timeframe !! "current_stress" = Some (PNum new) /\
        Water.get_historical_trends st' timeframe !! "last_reading_time"
          = Some (PNum (timestamp_or (timestamp c) (clock c)))).
Proof.
  cbv zeta. set (st := snd (run (water_call fpow) history Water.init)).
  pose proof (water_run_level fpow history) as Hlevel. fold st in Hlevel.
  unfold Water.get_historical_trends.
  split; [destruct (Water.prev_stress_level st); reflexivity |].
  split; [destruct (Water.prev_stress_level st); reflexivity |].
  split.
  - rewrite <- Hlevel. destruct (Water.prev_stress_level st) as [s |].
    + split; intros _; eexists; reflexivity.
    + split; intros [x Hx]; discriminate Hx.
  - intros c p st' Hcall. unfold water_call in Hcall.
    rewrite water_translate_unfold in Hcall.
    destruct (is_none _ || is_none _); [discriminate Hcall |].
    destruct (Water.analyze_water_stress fpow _ _ _) as [e | a]; [discriminate Hcall |].
    cbv zeta in Hcall. injection Hcall as _ <-. cbn [Water.prev_stress_level Water.prev_timestamp].
    exists (Water.stress_level a). split; [reflexivity |]. split; reflexivity.
Qed.

Lemma historical_trends_report_witness :
  let w1 := {| sensor_data := list_to_map [("soil_moisture", PNum 27.5);
                                           ("ecosystem_type", PStr "temperate_forest")];
               timestamp := Some 10; clock := 11 |} in
  let w2 := {| sensor_data := list_to_map [("soil_moisture", PNum 18);
                                           ("ecosystem_type", PStr "temperate_forest")];
               timestamp := None; clock := 21 |} in
  let st := snd (run (water_call pow_sample) [w1] Water.init) in
  exists p st',
    water_call pow_sample w2 st = (inr p, st') /\
    exists new,
      Water.prev_stress_level st' = Some new /\
      Water.get_historical_trends st' PNone !! "current_stress" = Some (PNum new) /\
      Water.get_historical_trends st' PNone !! "last_reading_time" = Some (PNum 21).
Proof.
  intros w1 w2 st. eexists _, _. split; [vm_compute; reflexivity |].
  destruct (historical_trends_report pow_sample [w1] PNone) as (_ & _ & _ & H).
  eapply (H w2). vm_compute; reflexivity.
Defined.

(** ** Recovery patterns and trends *)

Lemma biodiversity_generate_recovery_inv d prev :
  Biodiversity.type (Biodiversity.generate_feedback_pattern d prev) = "expanding_harmony" ->
  exists q, prev = Some q /\ d < q /\ 0.3 < q.
Proof.
  unfold Biodiversity.generate_feedback_pattern.
  destruct prev as [q |].
  - destruct (Qltb d q) eqn:H1; destruct (Qltb 0.3 q) eqn:H2; cbn [andb];
      try (destruct (Qltb d 0.2); [discriminate |]; destruct (Qltb d 0.5); discriminate).
    intros _. exists q. apply Qltb_lt in H1, H2. repeat split; assumption.
  - destruct (Qltb d 0.2); [discriminate |]. destruct (Qltb d 0.5); discriminate.
Qed.

(** A recovery pattern never carries a worsening trend: when the water
    translator returns a [recovery] pattern, or the biodiversity translator
    an [expanding_harmony] pattern, the severity has decreased, so a trend,
    if attached, has direction [improving]. *)
Theorem recovery_trend_improving (fpow : Q -> Q -> Q) :
  (forall now sd ts (st st' : Water.Readings) p t,
      Water.translate fpow now sd ts st = (inr p, st') ->
      Water.type p = "recovery" ->
      Water.trend p = Some t ->
      direction t = "improving") /\
  (forall now sd ts (st st' : Biodiversity.Readings) p t,
      Biodiversity.translate now sd ts st = (inr p, st') ->
      Biodiversity.type p = "expanding_harmony" ->
      Biodiversity.trend p = Some t ->
      direction t = "improving").
Proof.
  split; intros now sd ts st st' p t.
  - rewrite water_translate_unfold.
    destruct (is_none _ || is_none _); [intros H; discriminate H |].
    destruct (Water.analyze_water_stress fpow _ _ _) as [e | a]; [intros H; discriminate H |].
    cbv zeta. intros H. injection H as <- _.
    destruct (Water.prev_stress_level st) as [q |] eqn:Hq.
    + destruct (Qltb 0.1 _).
      * cbn [Water.set_trend Water.type Water.trend]. intros Hty Ht. injection Ht as <-.
        cbn [direction].
        destruct (water_generate_cases fpow (Water.stress_level a) (Water.is_saturated a)
                    (Water.saturation_level a) (Some q))
          as [(_ & q' & Eq & Hlt & _) | [(E & _) | [(E & _) | (E & _)]]];
          try (rewrite E in Hty; discriminate Hty).
        injection Eq as <-.
        assert (E : Qltb (Water.stress_level a - q) 0 = true) by (apply Qltb_lt; lra).
        rewrite E. reflexivity.
      * intros _ Ht. rewrite water_generate_no_trend in Ht. discriminate Ht.
    + intros _ Ht. rewrite water_generate_no_trend in Ht. discriminate Ht.
  - rewrite biodiversity_translate_unfold.
    destruct (Nat.eqb _ 0 || is_none _); [intros H; discriminate H |].
    destruct (Biodiversity.analyze_biodiversity _ _) as [e | d]; [intros H; discriminate H |].
    cbv zeta. intros H. injection H as <- _.
    destruct (Biodiversity.prev_depletion_level st) as [q |] eqn:Hq.
    + destruct (Qltb 0.05 _).
      * cbn [Biodiversity.set_trend Biodiversity.type Biodiversity.trend].
        intros Hty Ht. injection Ht as <-. cbn [direction].
        apply biodiversity_generate_recovery_inv in Hty as (q' & Eq & Hlt & _).
        injection Eq as <-.
        assert (E : Qltb (d - q) 0 = true) by (apply Qltb_lt; lra).
        rewrite E. reflexivity.
      * intros _ Ht. rewrite biodiversity_generate_no_trend in Ht. discriminate Ht.
    + intros _ Ht. rewrite biodiversity_generate_no_trend in Ht. discriminate Ht.
Qed.

Lemma recovery_trend_improving_witness :
  let sdw : gmap string pyval :=
    list_to_map [("soil_moisture", PNum 29); ("ecosystem_type", PStr "temperate_forest")] in
  let stw := {| Water.prev_soil_moisture := PNum 27.5;
                Water.prev_stress_level := Some 0.5;
                Water.prev_timestamp := Some 3 |} in
  let sdb : gmap string pyval :=
    list_to_map [("acoustic_diversity", PNum 0.5); ("ecosystem_type", PStr "wetland")] in
  let stb := {| Biodiversity.prev_depletion_level := Some 0.8;
                Biodiversity.prev_timestamp := Some 3 |} in
  (exists p st' t,
      Water.translate pow_sample 4 sdw None stw = (inr p, st') /\
      Water.type p = "recovery" /\ Water.trend p = Some t /\ direction t = "improving") /\
  (exists p st' t,
      Biodiversity.translate 4 sdb None stb = (inr p, st') /\
      Biodiversity.type p = "expanding_harmony" /\ Biodiversity.trend p = Some t /\
      direction t = "improving").
Proof.
  intros sdw stw sdb stb.
  pose proof (recovery_trend_improving pow_sample) as [Hw Hb].
  split.
  - eexists _, _, _. split; [vm_compute; reflexivity |].
    split; [reflexivity |]. split; [reflexivity |].
    eapply (Hw 4 sdw None stw); [vm_compute; reflexivity | reflexivity | reflexivity].
  - eexists _, _, _. split; [vm_compute; reflexivity |].
    split; [reflexivity |]. split; [reflexivity |].
    eapply (Hb 4 sdb None stb); [vm_compute; reflexivity | reflexivity | reflexivity].
Defined.

(** * Further properties of the biodiversity translator *)

(** Every configured diversity profile is ordered:
    [0 < low_threshold < optimal_low < optimal_high], for each indicator. *)
Lemma diversity_thresholds_ordered eco th :
  Biodiversity.diversity_thresholds !! eco = Some th ->
  Forall (fun t => 0 < Biodiversity.low_threshold t /\
                   Biodiversity.low_threshold t < fst (Biodiversity.optimal t) /\
                   fst (Biodiversity.optimal t) < snd (Biodiversity.optimal t))
         [Biodiversity.species_count th; Biodiversity.bird_species th;
          Biodiversity.insect_orders th; Biodiversity.shannon_index th].
Proof.
  intros H. apply elem_of_list_to_map_2 in H.
  unfold Biodiversity.diversity_table in H.
  repeat (apply elem_of_cons in H as [H | H];
          [inversion H; subst; cbn; repeat constructor |]).
  apply elem_of_nil in H. destruct H.
Qed.

Lemma zone_score_bounds t (below near : Q -> Q) (w v : Q) :
  0 < Biodiversity.low_threshold t ->
  Biodiversity.low_threshold t < fst (Biodiversity.optimal t) ->
  (forall x, 0 <= x <= 1 -> 0 <= below x <= w) ->
  (forall x, 0 <= x <= 1 -> 0 <= near x <= w) ->
  0 <= w ->
  0 <= Biodiversity.zone_score t below near v <= w.
Proof.
  intros H0 H1 Hbelow Hnear Hw. unfold Biodiversity.zone_score.
  destruct (Biodiversity.optimal t) as [lo hi]. cbn [fst] in H1.
  destruct (Qltb v (Biodiversity.low_threshold t)) eqn:Hlt.
  - apply Qltb_lt in Hlt. apply Hbelow, Qmin_1_bounds, Qdiv_nonneg; lra.
  - apply Qltb_ge in Hlt. destruct (Qltb v lo) eqn:Hlo; [| lra].
    apply Qltb_lt in Hlo. apply Hnear. split.
    + apply Qdiv_nonneg; lra.
    + apply Qdiv_le_1; lra.
Qed.

Lemma zone_score_optimal t (below near : Q -> Q) (v : Q) :
  Biodiversity.low_threshold t < fst (Biodiversity.optimal t) ->
  fst (Biodiversity.optimal t) <= v ->
  Biodiversity.zone_score t below near v = 0.0.
Proof.
  intros H1 Hv. unfold Biodiversity.zone_score.
  destruct (Biodiversity.optimal t) as [lo hi]. cbn [fst] in *.
  assert (E1 : Qltb v (Biodiversity.low_threshold t) = false) by (apply Qltb_ge; lra).
  assert (E2 : Qltb v lo = false) by (apply Qltb_ge; lra).
  rewrite E1, E2. reflexivity.
Qed.

Lemma append_score_Forall (P : Q -> Prop) (data : gmap string pyval) key score l l' :
  Forall P l ->
  (forall v, data !! key = Some (PNum v) -> P (score v)) ->
  Biodiversity.append_score data key score l = inr l' ->
  Forall P l'.
Proof.
  intros Hl Hscore. unfold Biodiversity.append_score.
  destruct (data !! key) as [[| v | s | d] |]; cbn [as_num]; intros H; try discriminate H.
  - injection H as <-. apply Forall_app. split; [exact Hl |].
    constructor; [| constructor]. apply Hscore. reflexivity.
  - injection H as <-. exact Hl.
Qed.

(** The depletion level is the default 0.5, or the mean of a non-empty
    list of scores, one per indicator present. *)
Lemma analyze_biodiversity_scores (P : Q -> Prop) (data : gmap string pyval) eco th d :
  Biodiversity.diversity_thresholds !! eco = Some th ->
  Biodiversity.analyze_biodiversity data (PStr eco) = inr d ->
  (forall v, data !! "species_count" = Some (PNum v) ->
     P (Biodiversity.zone_score (Biodiversity.species_count th)
          (fun x => x * 1.2) (fun x => x * 0.8) v)) ->
  (forall v, data !! "bird_species" = Some (PNum v) ->
     P (Biodiversity.zone_score (Biodiversity.bird_species th)
          (fun x => x) (fun x => x * 0.7) v)) ->
  (forall v, data !! "insect_orders" = Some (PNum v) ->
     P (Biodiversity.zone_score (Biodiversity.insect_orders th)
          (fun x => x * 1.1) (fun x => x * 0.8) v)) ->
  (forall v, data !! "shannon_index" = Some (PNum v) ->
     P (Biodiversity.zone_score (Biodiversity.shannon_index th)
          (fun x => x * 1.3) (fun x => x * 0.9) v)) ->
  (forall v, data !! "acoustic_diversity" = Some (PNum v) -> P (Qmax 0 (1 - v))) ->
  (d = 0.5 /\
   Forall (fun k => data !! k = None)
     ["species_count"; "bird_species"; "insect_orders"; "shannon_index";
      "acoustic_diversity"]) \/
  exists l, l <> [] /\ Forall P l /\
            d = Biodiversity.py_sum l / inject_Z (Z.of_nat (length l)).
Proof.
  intros Hth Ha P1 P2 P3 P4 P5.
  unfold Biodiversity.analyze_biodiversity in Ha. cbn [table_lookup] in Ha.
  rewrite Hth in Ha.
  destruct (Biodiversity.append_score data "species_count" _ []) as [e | l1] eqn:E1;
    [discriminate Ha |].
  destruct (Biodiversity.append_score data "bird_species" _ l1) as [e | l2] eqn:E2;
    [discriminate Ha |].
  destruct (Biodiversity.append_score data "insect_orders" _ l2) as [e | l3] eqn:E3;
    [discriminate Ha |].
  destruct (Biodiversity.append_score data "shannon_index" _ l3) as [e | l4] eqn:E4;
    [discriminate Ha |].
  destruct (Biodiversity.append_score data "acoustic_diversity" _ l4) as [e | l5] eqn:E5;
    [discriminate Ha |].
  pose proof (append_score_Forall P _ _ _ _ _ (Forall_nil_2 P) P1 E1) as F1.
  pose proof (append_score_Forall P _ _ _ _ _ F1 P2 E2) as F2.
  pose proof (append_score_Forall P _ _ _ _ _ F2 P3 E3) as F3.
  pose proof (append_score_Forall P _ _ _ _ _ F3 P4 E4) as F4.
  pose proof (append_score_Forall P _ _ _ _ _ F4 P5 E5) as F5.
  destruct l5 as [| x l5].
  - left. injection Ha as <-. split; [reflexivity |].
    unfold Biodiversity.append_score in E1, E2, E3, E4, E5.
    destruct (data !! "acoustic_diversity") as [v5 |] eqn:K5;
      [destruct (as_num v5); [discriminate E5 |];
       injection E5 as E5; destruct l4; discriminate E5 |].
    injection E5 as ->.
    destruct (data !! "shannon_index") as [v4 |] eqn:K4;
      [destruct (as_num v4); [discriminate E4 |];
       injection E4 as E4; destruct l3; discriminate E4 |].
    injection E4 as ->.
    destruct (data !! "insect_orders") as [v3 |] eqn:K3;
      [destruct (as_num v3); [discriminate E3 |];
       injection E3 as E3; destruct l2; discriminate E3 |].
    injection E3 as ->.
    destruct (data !! "bird_species") as [v2 |] eqn:K2;
      [destruct (as_num v2); [discriminate E2 |];
       injection E2 as E2; destruct l1; discriminate E2 |].
    injection E2 as ->.
    destruct (data !! "species_count") as [v1 |] eqn:K1;
      [destruct (as_num v1); [discriminate E1 |];
       injection E1 as E1; discriminate E1 |].
    repeat constructor; assumption.
  - right. exists (x :: l5). split; [discriminate |]. split; [exact F5 |].
    injection Ha as <-. reflexivity.
Qed.

Lemma inject_Z_length_cons {A} (x : A) (l : list A) :
  inject_Z (Z.of_nat (length (x :: l))) == inject_Z (Z.of_nat (length l)) + 1.
Proof.
  cbn [length]. rewrite Nat2Z.inj_succ. unfold Z.succ. rewrite inject_Z_plus. reflexivity.
Qed.

Lemma inject_Z_length_nonneg {A} (l : list A) : 0 <= inject_Z (Z.of_nat (length l)).
Proof.
  change 0 with (inject_Z 0). rewrite <- Zle_Qle. apply Nat2Z.is_nonneg.
Qed.

Lemma fold_sum_lower (l : list Q) (acc : Q) :
  Forall (fun x => 0 <= x) l -> acc <= fold_left Qplus l acc.
Proof.
  revert acc. induction l as [| x l IH]; intros acc H; cbn [fold_left]; [lra |].
  inversion H as [| ? ? Hx Hl]; subst. specialize (IH (acc + x) Hl). lra.
Qed.

Lemma fold_sum_upper (l : list Q) (acc B : Q) :
  Forall (fun x => x <= B) l ->
  fold_left Qplus l acc <= acc + B * inject_Z (Z.of_nat (length l)).
Proof.
  revert acc. induction l as [| x l IH]; intros acc H.
  - cbn [fold_left length]. change (inject_Z (Z.of_nat 0)) with 0. lra.
  - inversion H as [| ? ? Hx Hl]; subst. specialize (IH (acc + x) Hl).
    cbn [fold_left]. rewrite inject_Z_length_cons.
    set (n := inject_Z (Z.of_nat (length l))) in *. lra.
Qed.

Lemma mean_bounds (l : list Q) (B : Q) :
  l <> [] ->
  Forall (fun x => 0 <= x <= B) l ->
  0 <= Biodiversity.py_sum l / inject_Z (Z.of_nat (length l)) <= B.
Proof.
  intros Hne Hl. unfold Biodiversity.py_sum.
  assert (Hpos : 0 < inject_Z (Z.of_nat (length l))).
  { destruct l as [| x l]; [congruence |]. rewrite inject_Z_length_cons.
    pose proof (inject_Z_length_nonneg l). lra. }
  assert (Hlo : 0 <= fold_left Qplus l 0).
  { apply fold_sum_lower. eapply Forall_impl; [exact Hl |]. cbn. intros x Hx; lra. }
  assert (Hhi : fold_left Qplus l 0 <= 0 + B * inject_Z (Z.of_nat (length l))).
  { apply fold_sum_upper. eapply Forall_impl; [exact Hl |]. cbn. intros x Hx; lra. }
  split.
  - apply Qdiv_nonneg; assumption.
  - apply Qle_shift_div_r; [exact Hpos | lra].
Qed.

Lemma analyze_biodiversity_configured (data : gmap string pyval) eco d :
  Biodiversity.analyze_biodiversity data (PStr eco) = inr d ->
  exists th, Biodiversity.diversity_thresholds !! eco = Some th.
Proof.
  unfold Biodiversity.analyze_biodiversity. cbn [table_lookup].
  destruct (Biodiversity.diversity_thresholds !! eco) as [th |]; [| discriminate].
  intros _. exists th. reflexivity.
Qed.

(** The range the depletion level really has: whatever the metrics, the
    level is at least 0, and it is at most 1.3 (the largest indicator
    weight) when [acoustic_diversity], if given, is not negative. *)
Theorem depletion_level_range (data : gmap string pyval) eco d :
  Biodiversity.analyze_biodiversity data (PStr eco) = inr d ->
  (forall a, data !! "acoustic_diversity" = Some (PNum a) -> 0 <= a) ->
  0 <= d <= 1.3.
Proof.
  intros Ha Hac.
  destruct (analyze_biodiversity_configured data eco d Ha) as [th Hth].
  pose proof (diversity_thresholds_ordered eco th Hth) as Hord.
  inversion Hord as [| ? ? (S0 & S1 & _) Hord1]; subst.
  inversion Hord1 as [| ? ? (B0 & B1 & _) Hord2]; subst.
  inversion Hord2 as [| ? ? (I0 & I1 & _) Hord3]; subst.
  inversion Hord3 as [| ? ? (N0 & N1 & _) _]; subst.
  destruct (analyze_biodiversity_scores (fun x => 0 <= x <= 1.3) data eco th d Hth Ha)
    as [[-> _] | (l & Hne & Hl & ->)].
  - intros v _. apply zone_score_bounds; try assumption; try lra; intros x Hx; lra.
  - intros v _. apply zone_score_bounds; try assumption; try lra; intros x Hx; lra.
  - intros v _. apply zone_score_bounds; try assumption; try lra; intros x Hx; lra.
  - intros v _. apply zone_score_bounds; try assumption; try lra; intros x Hx; lra.
  - intros v Hv. specialize (Hac v Hv).
    destruct (Q.max_spec 0 (1 - v)) as [[H ->] | [H ->]]; lra.
  - lra.
  - apply mean_bounds; assumption.
Qed.

Lemma depletion_level_range_witness :
  let data : gmap string pyval := {[ "shannon_index" := PNum 0 ]} in
  exists d,
    Biodiversity.analyze_biodiversity data (PStr "temperate_forest") = inr d /\
    (forall a, data !! "acoustic_diversity" = Some (PNum a) -> 0 <= a) /\
    d == 1.3 /\ 0 <= d <= 1.3.
Proof.
  intros data. eexists. split; [vm_compute; reflexivity |].
  assert (Hac : forall a, data !! "acoustic_diversity" = Some (PNum a) -> 0 <= a)
    by (intros a H; vm_compute in H; discriminate H).
  split; [exact Hac |]. split; [reflexivity |].
  apply (depletion_level_range data "temperate_forest"); [vm_compute; reflexivity | exact Hac].
Defined.

(** A survey in which every indicator given is at or above the lower end
    of its optimal range (and [acoustic_diversity], if given, is at least
    1) has depletion level 0 as soon as one indicator is given, and a
    translator with no previous reading then returns the [harmony] pattern
    with emotion [wonder] and 10 layers. *)
Theorem healthy_survey_is_harmony (data : gmap string pyval) eco th d :
  Biodiversity.diversity_thresholds !! eco = Some th ->
  Biodiversity.analyze_biodiversity data (PStr eco) = inr d ->
  (forall v, data !! "species_count" = Some (PNum v) ->
     fst (Biodiversity.optimal (Biodiversity.species_count th)) <= v) ->
  (forall v, data !! "bird_species" = Some (PNum v) ->
     fst (Biodiversity.optimal (Biodiversity.bird_species th)) <= v) ->
  (forall v, data !! "insect_orders" = Some (PNum v) ->
     fst (Biodiversity.optimal (Biodiversity.insect_orders th)) <= v) ->
  (forall v, data !! "shannon_index" = Some (PNum v) ->
     fst (Biodiversity.optimal (Biodiversity.shannon_index th)) <= v) ->
  (forall v, data !! "acoustic_diversity" = Some (PNum v) -> 1 <= v) ->
  Exists (fun k => is_Some (data !! k))
    ["species_count"; "bird_species"; "insect_orders"; "shannon_index";
     "acoustic_diversity"] ->
  d == 0 /\
  Biodiversity.type (Biodiversity.generate_feedback_pattern d None) = "harmony" /\
  Biodiversity.emotion (Biodiversity.generate_feedback_pattern d None) = "wonder" /\
  Biodiversity.layers (Biodiversity.generate_feedback_pattern d None) = 10%Z.
Proof.
  intros Hth Ha H1 H2 H3 H4 H5 Hsome.
  pose proof (diversity_thresholds_ordered eco th Hth) as Hord.
  inversion Hord as [| ? ? (_ & S1 & _) Hord1]; subst.
  inversion Hord1 as [| ? ? (_ & B1 & _) Hord2]; subst.
  inversion Hord2 as [| ? ? (_ & I1 & _) Hord3]; subst.
  inversion Hord3 as [| ? ? (_ & N1 & _) _]; subst.
  assert (Hd : d == 0).
  { destruct (analyze_biodiversity_scores (fun x => 0 <= x <= 0) data eco th d Hth Ha)
      as [[_ Hnone] | (l & Hne & Hl & ->)].
    - intros v Hv. rewrite zone_score_optimal; [lra | assumption | apply H1, Hv].
    - intros v Hv. rewrite zone_score_optimal; [lra | assumption | apply H2, Hv].
    - intros v Hv. rewrite zone_score_optimal; [lra | assumption | apply H3, Hv].
    - intros v Hv. rewrite zone_score_optimal; [lra | assumption | apply H4, Hv].
    - intros v Hv. specialize (H5 v Hv).
      destruct (Q.max_spec 0 (1 - v)) as [[H ->] | [H ->]]; lra.
    - exfalso. rewrite Exists_exists in Hsome. destruct Hsome as (k & Hk & [x Hx]).
      rewrite Forall_forall in Hnone. rewrite (Hnone k Hk) in Hx. discriminate Hx.
    - pose proof (mean_bounds l 0 Hne Hl). lra. }
  split; [exact Hd |].
  unfold Biodiversity.generate_feedback_pattern.
  assert (E : Qltb d 0.2 = true) by (apply Qltb_lt; lra).
  rewrite E. cbn [Biodiversity.type Biodiversity.emotion Biodiversity.layers].
  split; [reflexivity |]. split; [reflexivity |].
  assert (Hx : (1 - d) * 10 == 10) by (rewrite Hd; reflexivity).
  rewrite py_int_floor by lra.
  assert (Hf : Qfloor ((1 - d) * 10) = 10%Z).
  { apply Z.le_antisymm.
    - apply Z.lt_succ_r. change (Z.succ 10) with 11%Z.
      apply Qfloor_lt_const. unfold inject_Z. lra.
    - apply Qfloor_ge_const. unfold inject_Z. lra. }
  rewrite Hf. reflexivity.
Qed.

Lemma healthy_survey_is_harmony_witness :
  let data : gmap string pyval :=
    list_to_map [("species_count", PNum 28); ("bird_species", PNum 18);
                 ("insect_orders", PNum 8); ("shannon_index", PNum 2.8)] in
  exists d,
    Biodiversity.analyze_biodiversity data (PStr "temperate_forest") = inr d /\
    d == 0 /\
    Biodiversity.type (Biodiversity.generate_feedback_pattern d None) = "harmony" /\
    Biodiversity.emotion (Biodiversity.generate_feedback_pattern d None) = "wonder" /\
    Biodiversity.layers (Biodiversity.generate_feedback_pattern d None) = 10%Z.
Proof.
  intros data. eexists. split; [vm_compute; reflexivity |].
  apply (healthy_survey_is_harmony data "temperate_forest"
           {| Biodiversity.species_count :=
                {| Biodiversity.optimal := (20, 50); Biodiversity.low_threshold := 10 |};
              Biodiversity.bird_species :=
                {| Biodiversity.optimal := (15, 30); Biodiversity.low_threshold := 8 |};
              Biodiversity.insect_orders :=
                {| Biodiversity.optimal := (8, 12); Biodiversity.low_threshold := 5 |};
              Biodiversity.shannon_index :=
                {| Biodiversity.optimal := (2.5, 4.0); Biodiversity.low_threshold := 2.0 |} |}).
  - vm_compute; reflexivity.
  - vm_compute; reflexivity.
  - intros v Hv. vm_compute in Hv. injection Hv as <-. discriminate.
  - intros v Hv. vm_compute in Hv. injection Hv as <-. discriminate.
  - intros v Hv. vm_compute in Hv. injection Hv as <-. discriminate.
  - intros v Hv. vm_compute in Hv. injection Hv as <-. discriminate.
  - intros v Hv. vm_compute in Hv. discriminate Hv.
  - apply Exists_cons_hd. eexists. reflexivity.
Defined.

Lemma py_int_nonpos x : x <= 0 -> (py_int x <= 0)%Z.
Proof.
  destruct x as [n d]. unfold Qle, py_int. cbn. intros H.
  assert (Hn : (n <= 0)%Z) by lia.
  destruct (Z.eq_dec n 0%Z) as [-> | Hne]; [reflexivity |].
  rewrite <- (Z.opp_involutive n), Z.quot_opp_l by lia.
  assert (0 <= - n ÷ Z.pos d)%Z by (apply Z.quot_pos; lia). lia.
Qed.

Lemma py_int_range x (lo hi : Z) :
  (0 <= lo)%Z -> inject_Z lo <= x -> x < inject_Z hi ->
  (lo <= py_int x < hi)%Z.
Proof.
  intros Hlo Hx1 Hx2.
  assert (H0 : 0 <= x).
  { assert (0 <= inject_Z lo) by (change 0 with (inject_Z 0); rewrite <- Zle_Qle; exact Hlo).
    lra. }
  rewrite py_int_floor by exact H0. split.
  - apply Qfloor_ge_const, Hx1.
  - apply Qfloor_lt_const, Hx2.
Qed.

(** The richness of a biodiversity pattern.  A [monotony] pattern has
    exactly 1 layer, whatever the depletion level.  For a depletion level
    in [[0,1]] the complexity lies between the base and the maximum
    complexity, a [harmony] pattern has 8 to 10 layers, a
    [simplified_harmony] 3 or 4, and an [expanding_harmony] 2 to 8. *)
Theorem biodiversity_pattern_richness (d : Q) (prev : option Q) :
  let g := Biodiversity.generate_feedback_pattern d prev in
  (Biodiversity.type g = "monotony" -> Biodiversity.layers g = 1%Z) /\
  (0 <= d <= 1 ->
   Biodiversity.base_complexity <= Biodiversity.complexity g
     <= Biodiversity.max_complexity /\
   (Biodiversity.type g = "harmony" -> (8 <= Biodiversity.layers g <= 10)%Z) /\
   (Biodiversity.type g = "simplified_harmony" -> (3 <= Biodiversity.layers g <= 4)%Z) /\
   (Biodiversity.type g = "expanding_harmony" -> (2 <= Biodiversity.layers g <= 8)%Z)).
Proof.
  cbv zeta.
  unfold Biodiversity.generate_feedback_pattern,
         Biodiversity.base_complexity, Biodiversity.max_complexity.
  destruct (match prev with Some q => _ | None => false end).
  { cbn. split; [discriminate |]. intros Hd. split; [lra |].
    repeat split; try discriminate.
    - lia.
    - assert (0 <= py_int ((1 - d) * 8) < 9)%Z
        by (apply py_int_range; [lia | unfold inject_Z; lra | unfold inject_Z; lra]).
      lia. }
  destruct (Qltb d 0.2) eqn:H2.
  { apply Qltb_lt in H2. cbn. split; [discriminate |]. intros Hd. split; [lra |].
    repeat split; try discriminate.
    - assert (8 <= py_int ((1 - d) * 10) < 11)%Z
        by (apply py_int_range; [lia | unfold inject_Z; lra | unfold inject_Z; lra]).
      lia.
    - assert (8 <= py_int ((1 - d) * 10) < 11)%Z
        by (apply py_int_range; [lia | unfold inject_Z; lra | unfold inject_Z; lra]).
      lia. }
  apply Qltb_ge in H2.
  destruct (Qltb d 0.5) eqn:H5.
  { apply Qltb_lt in H5. cbn. split; [discriminate |]. intros Hd. split; [lra |].
    repeat split; try discriminate.
    - assert (3 <= py_int ((1 - d) * 6) < 5)%Z
        by (apply py_int_range; [lia | unfold inject_Z; lra | unfold inject_Z; lra]).
      lia.
    - assert (3 <= py_int ((1 - d) * 6) < 5)%Z
        by (apply py_int_range; [lia | unfold inject_Z; lra | unfold inject_Z; lra]).
      lia. }
  apply Qltb_ge in H5. cbn. split.
  - intros _. destruct (Qlt_le_dec ((1 - d) * 3) 0) as [Hneg | Hpos].
    + assert (py_int ((1 - d) * 3) <= 0)%Z by (apply py_int_nonpos; lra). lia.
    + assert (0 <= py_int ((1 - d) * 3) < 2)%Z
        by (apply py_int_range; [lia | unfold inject_Z; lra | unfold inject_Z; lra]).
      lia.
  - intros Hd. split; [lra |]. repeat split; discriminate.
Qed.

Lemma biodiversity_pattern_richness_witness :
  0 <= 0.07 <= 1 /\
  let g := Biodiversity.generate_feedback_pattern 0.07 None in
  Biodiversity.type g = "harmony" /\
  Biodiversity.base_complexity <= Biodiversity.complexity g <= Biodiversity.max_complexity /\
  (Biodiversity.type g = "harmony" -> (8 <= Biodiversity.layers g <= 10)%Z).
Proof.
  split; [split; discriminate |]. cbv zeta. split; [reflexivity |].
  destruct (proj2 (biodiversity_pattern_richness 0.07 None)) as (Hc & Hh & _);
    [split; discriminate |].
  split; [exact Hc | exact Hh].
Defined.

(** * The configured ecosystem profiles *)

(** Every configured profile is ordered, so no analysis divides by zero:
    a moisture profile has
    [0 < stress_threshold < optimal_low < optimal_high < saturation_threshold < 100],
    and each indicator of a diversity profile has
    [0 < low_threshold < optimal_low < optimal_high]. *)
Theorem configured_profiles_ordered :
  (forall eco r,
      Water.ecosystem_moisture_ranges !! eco = Some r ->
      0 < Water.stress_threshold r /\
      Water.stress_threshold r < fst (Water.optimal r) /\
      fst (Water.optimal r) < snd (Water.optimal r) /\
      snd (Water.optimal r) < Water.saturation_threshold r /\
      Water.saturation_threshold r < 100) /\
  (forall eco th,
      Biodiversity.diversity_thresholds !! eco = Some th ->
      Forall (fun t => 0 < Biodiversity.low_threshold t /\
                       Biodiversity.low_threshold t < fst (Biodiversity.optimal t) /\
                       fst (Biodiversity.optimal t) < snd (Biodiversity.optimal t))
             [Biodiversity.species_count th; Biodiversity.bird_species th;
              Biodiversity.insect_orders th; Biodiversity.shannon_index th]).
Proof.
  split.
  - intros eco r H. exact (moisture_ranges_ordered eco r H).
  - intros eco th H. exact (diversity_thresholds_ordered eco th H).
Qed.

Lemma configured_profiles_ordered_witness :
  Water.ecosystem_moisture_ranges !! "rainforest"
    = Some {| Water.optimal := (50, 70); Water.stress_threshold := 45;
              Water.saturation_threshold := 80 |} /\
  0 < 45 /\ 45 < 50 /\ 50 < 70 /\ 70 < 80 /\ 80 < 100.
Proof.
  split; [vm_compute; reflexivity |].
  apply (proj1 configured_profiles_ordered "rainforest"
           {| Water.optimal := (50, 70); Water.stress_threshold := 45;
              Water.saturation_threshold := 80 |}).
  vm_compute; reflexivity.
Defined.

(** The two translators do not cover the same ecosystems: every ecosystem
    type configured for biodiversity is configured for water stress, and
    [rainforest] is the only one configured for water stress alone; so a
    rainforest payload with a numeric soil moisture and no indicators is
    translated by the water translator and rejected by the biodiversity
    translator with [UnknownEcosystemType]. *)
Theorem ecosystem_coverage (fpow : Q -> Q -> Q) :
  (forall eco, is_Some (Biodiversity.diversity_thresholds !! eco) ->
               is_Some (Water.ecosystem_moisture_ranges !! eco)) /\
  (forall eco, is_Some (Water.ecosystem_moisture_ranges !! eco) ->
               Biodiversity.diversity_thresholds !! eco = None ->
               eco = "rainforest") /\
  (forall now sd ts (stw : Water.Readings) (stb : Biodiversity.Readings) sm,
      py_get sd "ecosystem_type" = PStr "rainforest" ->
      py_get sd "soil_moisture" = PNum sm ->
      py_get sd "additional_indicators" = PNone ->
      is_ok (fst (Water.translate fpow now sd ts stw)) = true /\
      fst (Biodiversity.translate now sd ts stb) = inl UnknownEcosystemType).
Proof.
  split; [| split].
  - intros eco [th H]. apply elem_of_list_to_map_2 in H.
    unfold Biodiversity.diversity_table in H.
    repeat (apply elem_of_cons in H as [H | H];
            [inversion H; subst; eexists; vm_compute; reflexivity |]).
    apply elem_of_nil in H. destruct H.
  - intros eco [r H] Hnone. apply elem_of_list_to_map_2 in H.
    unfold Water.ecosystem_moisture_table in H.
    repeat (apply elem_of_cons in H as [H | H];
            [inversion H; subst; try reflexivity; vm_compute in Hnone; discriminate Hnone |]).
    apply elem_of_nil in H. destruct H.
  - intros now sd ts stw stb sm Heco Hsm Hind. split.
    + rewrite water_translate_unfold, Heco, Hsm, Hind. cbn [is_none orb].
      unfold Water.analyze_water_stress. cbn [table_lookup as_num truthy].
      change (Water.ecosystem_moisture_ranges !! "rainforest")
        with (Some {| Water.optimal := (50, 70); Water.stress_threshold := 45;
                      Water.saturation_threshold := 80 |}).
      reflexivity.
    + rewrite biodiversity_translate_unfold, Heco. cbn [is_none]. rewrite orb_false_r.
      assert (Hne : Nat.eqb (size (Biodiversity.metrics_of sd)) 0 = false).
      { apply metrics_nonempty. exists "soil_moisture".
        split; [discriminate |]. split; [discriminate |].
        unfold py_get in Hsm. destruct (sd !! "soil_moisture") as [v |]; [eexists; reflexivity |].
        discriminate Hsm. }
      rewrite Hne. unfold Biodiversity.analyze_biodiversity. cbn [table_lookup].
      change (Biodiversity.diversity_thresholds !! "rainforest")
        with (@None Biodiversity.DiversityThresholds).
      reflexivity.
Qed.

Lemma ecosystem_coverage_witness :
  let sd : gmap string pyval :=
    list_to_map [("soil_moisture", PNum 62); ("ecosystem_type", PStr "rainforest")] in
  is_ok (fst (Water.translate pow_sample 1 sd None Water.init)) = true /\
  fst (Biodiversity.translate 1 sd None Biodiversity.init) = inl UnknownEcosystemType.
Proof.
  intros sd.
  apply (proj2 (proj2 (ecosystem_coverage pow_sample)) 1 sd None Water.init
           Biodiversity.init 62); reflexivity.
Defined.

(** * The feedback of a collective pulse *)

Lemma generate_collective_feedback_unfold (fpow : Q -> Q -> Q) now id
    (self : Community.Interface) :
  Community._generate_collective_feedback fpow now id self =
  match list_find (fun s => Community.session_id s = id) (Community.collective_pulse self) with
  | None => (inr (Community.ErrorReply "Session not found"), self)
  | Some (i, session) =>
      match Community.translators self !! Community.domain session with
      | None =>
          (inr (Community.ErrorReply
                  ("No translator available for " ++ Community.domain session)), self)
      | Some translator =>
          let out :=
            Community.translator_translate fpow now translator
              (Community._get_current_ecological_data (Community.domain session)
                 (Community.focus_area session)) in
          let translators' :=
            <[Community.domain session := snd out]> (Community.translators self) in
          match fst out with
          | inl e =>
              (inl e, {| Community.collective_pulse := Community.collective_pulse self;
                         Community.translators := translators' |})
          | inr pattern =>
              let feedback :=
                {| Community.pattern := pattern;
                   Community.community_context :=
                     {| Community.participant_count :=
                          length (Community.participants session);
                        Community.watershed := Community._get_watershed_name;
                        Community.context_focus_area := Community.focus_area session;
                        Community.collective_intensity :=
                          Community.intensity_of_group (Community.participants session) |} |} in
              (inr (Community.FeedbackReply feedback),
               {| Community.collective_pulse :=
                    <[i := Community.activate session feedback]>
                      (Community.collective_pulse self);
                  Community.translators := translators' |})
          end
      end
  end.
Proof.
  unfold Community._generate_collective_feedback, bind, get, put, ret, lift.
  destruct (list_find _ _) as [[i session] |]; [| reflexivity].
  destruct (Community.translators self !! Community.domain session) as [translator |];
    [| reflexivity].
  cbv zeta.
  destruct (Community.translator_translate fpow now translator _) as [[e | pattern] tr'];
    reflexivity.
Qed.

(** A translator whose [translate] raises is left as it was. *)
Lemma translator_failure_keeps_state (fpow : Q -> Q -> Q) now translator data e translator' :
  Community.translator_translate fpow now translator data = (inl e, translator') ->
  translator' = translator.
Proof.
  unfold Community.translator_translate. destruct translator as [st | st].
  - destruct (Water.translate fpow now data None st) as [[e' | p] st'] eqn:H;
      intros E; [| discriminate E].
    injection E as _ <-. f_equal. eapply water_failure_keeps_state, H.
  - destruct (Biodiversity.translate now data None st) as [[e' | p] st'] eqn:H;
      intros E; [| discriminate E].
    injection E as _ <-. f_equal. eapply biodiversity_failure_keeps_state, H.
Qed.

(** Whenever [_generate_collective_feedback] does not produce a feedback
    (an error reply, or an exception of the translator), the sessions and
    the translators are exactly as before; the reply is
    ["Session not found"] exactly when no session has the given id. *)
Theorem collective_feedback_failure (fpow : Q -> Q -> Q) now id (self : Community.Interface) :
  (forall r self',
      Community._generate_collective_feedback fpow now id self = (r, self') ->
      (forall feedback, r <> inr (Community.FeedbackReply feedback)) ->
      self' = self) /\
  (fst (Community._generate_collective_feedback fpow now id self)
     = inr (Community.ErrorReply "Session not found") <->
   Forall (fun s => Community.session_id s <> id) (Community.collective_pulse self)).
Proof.
  rewrite generate_collective_feedback_unfold. split.
  - intros r self'.
    destruct (list_find _ _) as [[i session] |]; [| intros E; injection E as _ <-; reflexivity].
    destruct (Community.translators self !! Community.domain session) as [translator |] eqn:Ht;
      [| intros E; injection E as _ <-; reflexivity].
    cbv zeta.
    destruct (Community.translator_translate fpow now translator _) as [[e | pattern] tr'] eqn:Hout;
      cbn [fst snd].
    + intros E _. injection E as _ <-.
      apply translator_failure_keeps_state in Hout. subst tr'.
      rewrite insert_id by exact Ht. destruct self; reflexivity.
    + intros E Hno. injection E as <- _. exfalso. eapply Hno. reflexivity.
  - destruct (list_find _ _) as [[i session] |] eqn:Hfind.
    + split.
      * destruct (Community.translators self !! Community.domain session) as [translator |].
        -- cbv zeta.
           destruct (Community.translator_translate fpow now translator _)
             as [[e | pattern] tr']; cbn [fst snd]; intros E; discriminate E.
        -- cbn [fst]. intros E. cbn in E. discriminate E.
      * intros Hall. apply list_find_Some in Hfind as (Hi & Hid & _).
        rewrite Forall_forall in Hall. exfalso.
        apply (Hall session); [| exact Hid].
        apply list_elem_of_lookup. exists i. exact Hi.
    + split; [| reflexivity]. intros _. apply list_find_None in Hfind. exact Hfind.
Qed.

Lemma collective_feedback_failure_witness :
  let session :=
    {| Community.session_id := "pulse_1700000000"; Community.initiator := "user1";
       Community.time := "2025-01-01T10:00:00"; Community.status := "scheduled";
       Community.domain := "soil_health"; Community.focus_area := PNone;
       Community.duration := 300; Community.participants := ["user1"; "user2"];
       Community.feedback_pattern := None; Community.reflections := [] |} in
  let self :=
    {| Community.collective_pulse := [session];
       Community.translators := {[ "soil_health" := Community.WaterStressTranslator Water.init ]} |} in
  fst (Community._generate_collective_feedback pow_sample 5 "pulse_1700000000" self)
    = inl MissingSensorData /\
  snd (Community._generate_collective_feedback pow_sample 5 "pulse_1700000000" self) = self.
Proof.
  intros session self. split; [vm_compute; reflexivity |].
  apply (proj1 (collective_feedback_failure pow_sample 5 "pulse_1700000000" self)
           (inl MissingSensorData)).
  - vm_compute; reflexivity.
  - intros feedback H. discriminate H.
Defined.

(** What a successful [_generate_collective_feedback] changes: the first
    session with the given id becomes ["active"] and stores the feedback
    that is returned, its other fields being kept; every other session,
    the number of sessions and the translators of the other domains are
    untouched; and the feedback's context counts the session's
    participants. *)
Theorem collective_feedback_success (fpow : Q -> Q -> Q) now id
    (self self' : Community.Interface) feedback :
  Community._generate_collective_feedback fpow now id self
    = (inr (Community.FeedbackReply feedback), self') ->
  exists i session,
    list_find (fun s => Community.session_id s = id) (Community.collective_pulse self)
      = Some (i, session) /\
    Community.collective_pulse self' !! i = Some (Community.activate session feedback) /\
    Community.status (Community.activate session feedback) = "active" /\
    Community.feedback_pattern (Community.activate session feedback) = Some feedback /\
    Community.participants (Community.activate session feedback)
      = Community.participants session /\
    length (Community.collective_pulse self') = length (Community.collective_pulse self) /\
    Community.session_id <$> Community.collective_pulse self'
      = Community.session_id <$> Community.collective_pulse self /\
    (forall j, j <> i ->
       Community.collective_pulse self' !! j = Community.collective_pulse self !! j) /\
    (forall other, other <> Community.domain session ->
       Community.translators self' !! other = Community.translators self !! other) /\
    Community.participant_count (Community.community_context feedback)
      = length (Community.participants session).
Proof.
  rewrite generate_collective_feedback_unfold.
  destruct (list_find _ _) as [[i session] |] eqn:Hfind; [| intros E; discriminate E].
  destruct (Community.translators self !! Community.domain session) as [translator |];
    [| intros E; discriminate E].
  cbv zeta.
  destruct (Community.translator_translate fpow now translator _) as [[e | pattern] tr'];
    cbn [fst snd]; intros E; [discriminate E |].
  injection E as <- <-. cbn [Community.collective_pulse Community.translators].
  exists i, session. split; [reflexivity |].
  apply list_find_Some in Hfind as (Hi & Hid & _).
  assert (Hlen : (i < length (Community.collective_pulse self))%nat)
    by (apply lookup_lt_is_Some; eexists; exact Hi).
  split; [apply list_lookup_insert_eq, Hlen |].
  split; [reflexivity |]. split; [reflexivity |]. split; [reflexivity |].
  split; [apply length_insert |].
  split.
  { rewrite list_fmap_insert. cbn [Community.activate Community.session_id].
    apply list_insert_id. rewrite list_lookup_fmap, Hi. reflexivity. }
  split; [intros j Hj; apply list_lookup_insert_ne; congruence |].
  split; [intros other Hother; apply lookup_insert_ne; congruence |].
  reflexivity.
Qed.

Lemma collective_feedback_success_witness :
  let session :=
    {| Community.session_id := "pulse_1700000000"; Community.initiator := "user1";
       Community.time := "2025-01-01T10:00:00"; Community.status := "scheduled";
       Community.domain := "biodiversity"; Community.focus_area := PNone;
       Community.duration := 300; Community.participants := ["user1"; "user2"];
       Community.feedback_pattern := None; Community.reflections := [] |} in
  let self :=
    {| Community.collective_pulse := [session];
       Community.translators :=
         {[ "biodiversity" := Community.BiodiversityTranslator Biodiversity.init ]} |} in
  exists feedback self',
    Community._generate_collective_feedback pow_sample 5 "pulse_1700000000" self
      = (inr (Community.FeedbackReply feedback), self') /\
    Community.collective_pulse self' !! 0%nat = Some (Community.activate session feedback) /\
    Community.participant_count (Community.community_context feedback) = 2%nat.
Proof.
  intros session self. eexists _, _. split; [vm_compute; reflexivity |].
  edestruct (collective_feedback_success pow_sample 5 "pulse_1700000000" self)
    as (i & s & Hfind & Hi & _ & _ & _ & _ & _ & _ & _ & Hn);
    [vm_compute; reflexivity |].
  assert (E : Some (i, s) = Some (0%nat, session))
    by (rewrite <- Hfind; vm_compute; reflexivity).
  injection E as -> ->. split; [exact Hi | exact Hn].
Defined.

(** The collective intensity grows with the group: it is
    [0.5 + participants / 20] up to ten participants and 1 from ten
    participants on, so always between 0.5 and 1. *)
Theorem collective_intensity_scale (participants : list string) :
  0.5 <= Community.intensity_of_group participants <= 1 /\
  ((length participants <= 10)%nat ->
   Community.intensity_of_group participants
     == 0.5 + inject_Z (Z.of_nat (length participants)) / 20) /\
  ((10 <= length participants)%nat -> Community.intensity_of_group participants == 1).
Proof.
  unfold Community.intensity_of_group.
  pose proof (inject_Z_length_nonneg participants) as Hn.
  assert (Hle10 : (length participants <= 10)%nat ->
                  inject_Z (Z.of_nat (length participants)) <= 10).
  { intros H. change 10 with (inject_Z (Z.of_nat 10)). rewrite <- Zle_Qle. lia. }
  assert (Hge10 : (10 <= length participants)%nat ->
                  10 <= inject_Z (Z.of_nat (length participants))).
  { intros H. change 10 with (inject_Z (Z.of_nat 10)). rewrite <- Zle_Qle. lia. }
  generalize dependent (inject_Z (Z.of_nat (length participants))). intros n Hn Hle10 Hge10.
  assert (Hx : n / 10 * 0.5 + 0.5 == 0.5 + n / 20) by field.
  assert (Hm0 : 0 <= n / 20) by (apply Qdiv_nonneg; lra).
  assert (Hmle : n <= 10 -> n / 20 <= 0.5) by (intros H; apply Qle_shift_div_r; lra).
  assert (Hmge : 10 <= n -> 0.5 <= n / 20) by (intros H; apply Qle_shift_div_l; lra).
  generalize dependent (n / 20). intros m Hx Hm0 Hmle Hmge.
  destruct (Q.min_spec 1.0 (n / 10 * 0.5 + 0.5)) as [[H E] | [H E]];
    rewrite E; clear E; rewrite Hx in H.
  - split; [lra |]. split.
    + intros Hle. specialize (Hmle (Hle10 Hle)). lra.
    + intros _. reflexivity.
  - split; [lra |]. split.
    + intros _. exact Hx.
    + intros Hge. specialize (Hmge (Hge10 Hge)). lra.
Qed.

Lemma collective_intensity_scale_witness :
  (length ["user1"; "user2"; "user3"] <= 10)%nat /\
  Community.intensity_of_group ["user1"; "user2"; "user3"] == 0.65.
Proof.
  split; [cbn; lia |].
  rewrite (proj1 (proj2 (collective_intensity_scale ["user1"; "user2"; "user3"])));
    [reflexivity | cbn; lia].
Defined.

Lemma water_zero_stress_type (fpow : Q -> Q -> Q) s sl prev :
  s == 0 ->
  Water.type (Water.generate_feedback_pattern fpow s false sl prev) =
    match prev with
    | Some q => if Qltb 0.3 q then "recovery" else "affirmation"
    | None => "affirmation"
    end.
Proof.
  intros Hs. unfold Water.generate_feedback_pattern.
  assert (E0 : Qeq_bool s 0 = true) by (apply Qeq_bool_iff, Hs).
  assert (E3 : Qltb s 0.3 = true) by (apply Qltb_lt; lra).
  rewrite E0, E3. destruct prev as [q |]; [| reflexivity].
  destruct (Qltb 0.3 q) eqn:Hq.
  - assert (E : Qltb s q = true) by (apply Qltb_lt; apply Qltb_lt in Hq; lra).
    rewrite E. reflexivity.
  - rewrite andb_false_r. reflexivity.
Qed.

Lemma biodiversity_low_depletion_type d prev :
  d < 0.2 ->
  Biodiversity.type (Biodiversity.generate_feedback_pattern d prev) =
    match prev with
    | Some q => if Qltb 0.3 q then "expanding_harmony" else "harmony"
    | None => "harmony"
    end.
Proof.
  intros Hd. unfold Biodiversity.generate_feedback_pattern.
  assert (E2 : Qltb d 0.2 = true) by (apply Qltb_lt, Hd).
  rewrite E2. destruct prev as [q |]; [| reflexivity].
  destruct (Qltb 0.3 q) eqn:Hq.
  - assert (E : Qltb d q = true) by (apply Qltb_lt; apply Qltb_lt in Hq; lra).
    rewrite E. reflexivity.
  - rewrite andb_false_r. reflexivity.
Qed.

(** What a collective pulse delivers from the simulated readings.  For the
    domain [water_stress] served by a water translator the soil moisture
    equals the stress threshold, the stress level is 0, and the pattern is
    an [affirmation], or a [recovery] when the translator remembers a
    stress level above 0.3.  For the domain [biodiversity] served by a
    biodiversity translator the pattern is a [harmony], or an
    [expanding_harmony] when the translator remembers a depletion level
    above 0.3. *)
Theorem collective_pulse_patterns (fpow : Q -> Q -> Q) now id
    (self : Community.Interface) i session :
  list_find (fun s => Community.session_id s = id) (Community.collective_pulse self)
    = Some (i, session) ->
  (forall st,
      Community.domain session = "water_stress" ->
      Community.translators self !! "water_stress" = Some (Community.WaterStressTranslator st) ->
      exists feedback self' p,
        Community._generate_collective_feedback fpow now id self
          = (inr (Community.FeedbackReply feedback), self') /\
        Community.pattern feedback = Community.WaterPattern p /\
        Water.type p =
          match Water.prev_stress_level st with
          | Some q => if Qltb 0.3 q then "recovery" else "affirmation"
          | None => "affirmation"
          end) /\
  (forall st,
      Community.domain session = "biodiversity" ->
      Community.translators self !! "biodiversity"
        = Some (Community.BiodiversityTranslator st) ->
      exists feedback self' p,
        Community._generate_collective_feedback fpow now id self
          = (inr (Community.FeedbackReply feedback), self') /\
        Community.pattern feedback = Community.BiodiversityPattern p /\
        Biodiversity.type p =
          match Biodiversity.prev_depletion_level st with
          | Some q => if Qltb 0.3 q then "expanding_harmony" else "harmony"
          | None => "harmony"
          end).
Proof.
  intros Hfind. split; intros st Hdom Htr.
  - rewrite generate_collective_feedback_unfold, Hfind, Hdom, Htr. cbv zeta.
    unfold Community.translator_translate.
    set (data := Community._get_current_ecological_data "water_stress" _).
    assert (Ha : Water.analyze_water_stress fpow (py_get data "soil_moisture")
                   (py_get data "ecosystem_type") (py_get data "additional_indicators")
                 = inr {| Water.stress_level := 0 # 25; Water.is_saturated := false;
                          Water.saturation_level := 0.0 |})
      by (vm_compute; reflexivity).
    destruct (water_translate_ok fpow now data None st _ Ha) as (p & st' & Ht & _ & Hty & _).
    rewrite Ht. cbn [fst snd]. eexists _, _, p.
    split; [reflexivity |]. split; [reflexivity |].
    cbv zeta in Hty. rewrite Hty. cbn [Water.stress_level Water.is_saturated].
    apply water_zero_stress_type. reflexivity.
  - rewrite generate_collective_feedback_unfold, Hfind, Hdom, Htr. cbv zeta.
    unfold Community.translator_translate.
    set (data := Community._get_current_ecological_data "biodiversity" _).
    rewrite biodiversity_translate_unfold.
    assert (Hv : Nat.eqb (size (Biodiversity.metrics_of data)) 0
                 || is_none (py_get data "ecosystem_type") = false)
      by (vm_compute; reflexivity).
    assert (Ha : Biodiversity.analyze_biodiversity (Biodiversity.metrics_of data)
                   (py_get data "ecosystem_type") = inr (350000 # 5000000))
      by (vm_compute; reflexivity).
    rewrite Hv, Ha. cbv zeta. cbn [fst snd]. eexists _, _, _.
    split; [reflexivity |]. split; [reflexivity |].
    destruct (Biodiversity.prev_depletion_level st) as [q |] eqn:Hq.
    + assert (Hty : forall t,
                Biodiversity.type
                  (if Qltb 0.05 (Qabs ((350000 # 5000000) - q))
                   then Biodiversity.set_trend
                          (Biodiversity.generate_feedback_pattern (350000 # 5000000) (Some q)) t
                   else Biodiversity.generate_feedback_pattern (350000 # 5000000) (Some q))
                = Biodiversity.type
                    (Biodiversity.generate_feedback_pattern (350000 # 5000000) (Some q)))
        by (intros t; destruct (Qltb 0.05 _); reflexivity).
      rewrite Hty. apply (biodiversity_low_depletion_type _ (Some q)). reflexivity.
    + apply (biodiversity_low_depletion_type _ None). reflexivity.
Qed.

Lemma collective_pulse_patterns_witness :
  let session :=
    {| Community.session_id := "pulse_1700000000"; Community.initiator := "user1";
       Community.time := "2025-01-01T10:00:00"; Community.status := "scheduled";
       Community.domain := "water_stress"; Community.focus_area := PNone;
       Community.duration := 300; Community.participants := ["user1"];
       Community.feedback_pattern := None; Community.reflections := [] |} in
  let self :=
    {| Community.collective_pulse := [session];
       Community.translators :=
         {[ "water_stress" := Community.WaterStressTranslator Water.init ]} |} in
  exists feedback self' p,
    Community._generate_collective_feedback pow_sample 5 "pulse_1700000000" self
      = (inr (Community.FeedbackReply feedback), self') /\
    Community.pattern feedback = Community.WaterPattern p /\
    Water.type p = "affirmation".
Proof.
  intros session self.
  apply (proj1 (collective_pulse_patterns pow_sample 5 "pulse_1700000000" self 0%nat session
                  ltac:(vm_compute; reflexivity)) Water.init);
    vm_compute; reflexivity.
Defined.

(** A collective pulse for any domain other than [water_stress] and
    [biodiversity] cannot be served: when a translator of either class is
    registered for it, [_generate_collective_feedback] raises the
    translator's [MissingSensorData] error, and nothing changes. *)
Theorem unsupported_domain_raises (fpow : Q -> Q -> Q) now id
    (self : Community.Interface) i session translator :
  list_find (fun s => Community.session_id s = id) (Community.collective_pulse self)
    = Some (i, session) ->
  Community.translators self !! Community.domain session = Some translator ->
  Community.domain session <> "water_stress" ->
  Community.domain session <> "biodiversity" ->
  Community._generate_collective_feedback fpow now id self = (inl MissingSensorData, self).
Proof.
  intros Hfind Htr Hw Hb.
  rewrite generate_collective_feedback_unfold, Hfind, Htr. cbv zeta.
  unfold Community._get_current_ecological_data.
  apply String.eqb_neq in Hw, Hb. rewrite Hw, Hb.
  assert (Hout : Community.translator_translate fpow now translator
                   (list_to_map [("ecosystem_type", PStr "temperate_forest")])
                 = (inl MissingSensorData, translator)).
  { unfold Community.translator_translate. destruct translator as [st | st].
    - rewrite water_translate_unfold. reflexivity.
    - rewrite biodiversity_translate_unfold. reflexivity. }
  rewrite Hout. cbn [fst snd]. rewrite insert_id by exact Htr.
  destruct self; reflexivity.
Qed.

Lemma unsupported_domain_raises_witness :
  let session :=
    {| Community.session_id := "pulse_1700000000"; Community.initiator := "user1";
       Community.time := "2025-01-01T10:00:00"; Community.status := "scheduled";
       Community.domain := "air_quality"; Community.focus_area := PStr "north fork";
       Community.duration := 300; Community.participants := ["user1"];
       Community.feedback_pattern := None; Community.reflections := [] |} in
  let self :=
    {| Community.collective_pulse := [session];
       Community.translators :=
         {[ "air_quality" := Community.BiodiversityTranslator Biodiversity.init ]} |} in
  Community._generate_collective_feedback pow_sample 5 "pulse_1700000000" self
    = (inl MissingSensorData, self).
Proof.
  intros session self.
  apply (unsupported_domain_raises pow_sample 5 "pulse_1700000000" self 0%nat session
           (Community.BiodiversityTranslator Biodiversity.init)).
  - vm_compute; reflexivity.
  - vm_compute; reflexivity.
  - discriminate.
  - discriminate.
Defined.

(** * Payload keys the translators ignore *)

(** The water translator reads three keys of the payload and nothing
    else: payloads that agree on [soil_moisture], [ecosystem_type] and
    [additional_indicators] give the same outcome and leave the same
    readings.  The biodiversity translator ignores a [timestamp] entry of
    the payload: with or without it the outcome and the readings are the
    same, the stored timestamp being the call's argument or the clock. *)
Theorem ignored_payload_keys (fpow : Q -> Q -> Q) :
  (forall now (sd sd' : gmap string pyval) ts (st : Water.Readings),
      sd !! "soil_moisture" = sd' !! "soil_moisture" ->
      sd !! "ecosystem_type" = sd' !! "ecosystem_type" ->
      sd !! "additional_indicators" = sd' !! "additional_indicators" ->
      Water.translate fpow now sd ts st = Water.translate fpow now sd' ts st) /\
  (forall now (sd : gmap string pyval) ts (st : Biodiversity.Readings) v,
      Biodiversity.translate now (<["timestamp" := v]> sd) ts st
        = Biodiversity.translate now (delete "timestamp" sd) ts st).
Proof.
  split.
  - intros now sd sd' ts st H1 H2 H3. rewrite !water_translate_unfold.
    unfold py_get. rewrite H1, H2, H3. reflexivity.
  - intros now sd ts st v. rewrite !biodiversity_translate_unfold.
    assert (Hm : Biodiversity.metrics_of (<["timestamp" := v]> sd)
                 = Biodiversity.metrics_of (delete "timestamp" sd)).
    { apply map_eq. intros k. unfold Biodiversity.metrics_of.
      rewrite !map_lookup_filter.
      destruct (decide (k = "timestamp")) as [-> | Hk].
      - rewrite lookup_insert_eq, lookup_delete_eq. cbn.
        rewrite option_guard_False; [reflexivity |]. set_solver.
      - rewrite lookup_insert_ne, lookup_delete_ne by congruence. reflexivity. }
    assert (He : py_get (<["timestamp" := v]> sd) "ecosystem_type"
                 = py_get (delete "timestamp" sd) "ecosystem_type").
    { unfold py_get. rewrite lookup_insert_ne, lookup_delete_ne by discriminate.
      reflexivity. }
    rewrite Hm, He. reflexivity.
Qed.

Lemma ignored_payload_keys_witness :
  let sd : gmap string pyval :=
    list_to_map [("soil_moisture", PNum 18); ("ecosystem_type", PStr "grassland")] in
  let sd' : gmap string pyval := <["site" := PStr "north fork"]> sd in
  Water.translate pow_sample 3 sd None Water.init
    = Water.translate pow_sample 3 sd' None Water.init.
Proof.
  intros sd sd'.
  apply (proj1 (ignored_payload_keys pow_sample) 3 sd sd' None Water.init); reflexivity.
Defined.
